(** * The osd-pm [Project] model: dependency validation, executables,
      version installs and pruning of workspace links

    Shallow embedding of [packages/osd-pm/src/utils/project.ts].

    Conventions of the embedding.
    - JavaScript strings are [string]; [undefined] is [None].
    - A parsed manifest ([IPackageJson]) is a record with one field per key
      that [Project] reads.  [name] is a string; [version] may be missing
      from the manifest; the dependency blocks are string-to-string maps
      ([IPackageDependencies]); [bin] and the [@osd/pm] block are arbitrary
      JSON values.
    - Objects used as dictionaries are [gmap string _] when only lookups
      matter and association lists (insertion order) when the code walks
      their keys.  Lookups are own-property lookups: keys are taken not to
      clash with the members of [Object.prototype].
    - [throw] is the [Throw] outcome of a small state-and-error monad over
      the [world]: the files on disk and the calls issued to the package
      manager.  Log lines are not part of the model.
    - Node's [path.resolve], [path.relative] and [util.inspect], and the
      helpers imported from files outside this one, are parameters of the
      model; concrete stand-ins follow the generic model and serve the
      closed examples. *)

From Stdlib Require Import ZArith Ascii String.
From stdpp Require Import base option list strings gmap fin_maps.

Local Open Scope Z_scope.
Set Warnings "-register-all".

(* ================================================================== *)
(** * JSON values *)

Inductive Json : Type :=
| JNull
| JBool (b : bool)
| JNumber (n : Z)
| JString (s : string)
| JArray (items : list Json)
| JObject (members : list (string * Json)).

(** JavaScript truthiness of a value that may be [undefined]. *)
Definition truthy (v : option Json) : bool :=
  match v with
  | None => false
  | Some JNull => false
  | Some (JBool b) => b
  | Some (JNumber n) => negb (n =? 0)
  | Some (JString s) => negb (bool_decide (s = ""))
  | Some (JArray _) => true
  | Some (JObject _) => true
  end.

(** First binding of [k] in an association list. *)
Fixpoint assoc {A : Type} (k : string) (l : list (string * A)) : option A :=
  match l with
  | [] => None
  | (k', v) :: rest => if bool_decide (k' = k) then Some v else assoc k rest
  end.

(** [typeof v] for the three answers the code tests. *)
Inductive js_type := TString | TObject | TOther.

Definition typeof (v : Json) : js_type :=
  match v with
  | JString _ => TString
  | JNull | JArray _ | JObject _ => TObject
  | JBool _ | JNumber _ => TOther
  end.

(** Decimal rendering of an array index, as [Object.keys] gives it. *)
Definition digit (n : nat) : ascii := ascii_of_nat (48 + n).

Fixpoint index_digits (fuel n : nat) (acc : string) : string :=
  match fuel with
  | O => acc
  | S fuel' =>
      let acc' := String (digit (n mod 10)) acc in
      if Nat.ltb n 10 then acc' else index_digits fuel' (n / 10) acc'
  end.

Definition index_key (n : nat) : string := index_digits (S n) n "".

(** The own enumerable properties of a value, in enumeration order: the
    members of an object, the indexed items of an array. *)
Definition own_entries (v : Json) : list (string * Json) :=
  match v with
  | JObject members => members
  | JArray items => imap (fun i x => (index_key i, x)) items
  | _ => []
  end.

(** [Object.keys(v)]. *)
Definition Object_keys (v : Json) : list string := (own_entries v).*1.

(** [v[k]] for an own property [k]. *)
Definition get_prop (v : Json) (k : string) : option Json :=
  assoc k (own_entries v).

(* ================================================================== *)
(** * Strings *)

Definition is_sep (c : ascii) : bool :=
  bool_decide (c = "/"%char) || bool_decide (c = "\"%char).

(** [path.replace(/[\\\/]+/g, '/')]: every maximal run of separators
    becomes one forward slash.  [in_run] tells that the previous character
    belonged to a run already replaced. *)
Fixpoint normalizePath_from (in_run : bool) (path : string) : string :=
  match path with
  | EmptyString => EmptyString
  | String c rest =>
      if is_sep c then
        if in_run then normalizePath_from true rest
        else String "/" (normalizePath_from true rest)
      else String c (normalizePath_from false rest)
  end.

Definition normalizePath (path : string) : string :=
  normalizePath_from false path.

(** The characters of a string. *)
Definition chars (s : string) : list ascii := list_ascii_of_string s.

(** [s.startsWith(p)]. *)
Fixpoint startsWith (p s : string) : bool :=
  match p, s with
  | EmptyString, _ => true
  | String _ _, EmptyString => false
  | String a p', String b s' => bool_decide (a = b) && startsWith p' s'
  end.

(** A template literal renders [undefined] as the word. *)
Definition render (v : option string) : string :=
  match v with
  | Some s => s
  | None => "undefined"
  end.

Definition quote : string := String (ascii_of_nat 34) EmptyString.

(* ================================================================== *)
(** * Outcomes and the world *)

Inductive exn : Type :=
| CliError (message : string) (meta : list (string * string))
| ForeignError (description : string).

Inductive completion (A : Type) : Type :=
| Return (a : A)
| Throw (e : exn).
Arguments Return {A} a.
Arguments Throw {A} e.

(** Calls issued to the package-manager helpers of [./scripts]. *)
Inductive call : Type :=
| InstallInDir (dir : string) (extraArgs : option (list string))
    (useAdd : option bool)
| PatchFile (file search replacement : string)
| YarnWorkspacesInfo (dir : string).

Record world : Type := World {
  files : gmap string string;
  calls : list call
}.

Definition M (A : Type) : Type := world -> completion A * world.

Definition ret {A} (a : A) : M A := fun w => (Return a, w).
Definition throw {A} (e : exn) : M A := fun w => (Throw e, w).
Definition bind {A B} (m : M A) (k : A -> M B) : M B :=
  fun w =>
    match m w with
    | (Return a, w') => k a w'
    | (Throw e, w') => (Throw e, w')
    end.

Declare Scope js_scope.
Delimit Scope js_scope with js.
Notation "x <- m ;; k" := (bind m (fun x => k))
  (at level 100, m at next level, right associativity) : js_scope.
Notation "m ;;; k" := (bind m (fun _ => k))
  (at level 100, right associativity) : js_scope.

Definition record_call (c : call) : M unit :=
  fun w => (Return tt, World (files w) (calls w ++ [c])).

(** [existsSync] and [unlinkSync] on the modelled file system. *)
Definition existsSync (p : string) : M bool :=
  fun w => (Return (bool_decide (is_Some (files w !! p))), w).

Definition unlinkSync (p : string) : M unit :=
  fun w => (Return tt, World (delete p (files w)) (calls w)).

(** Sequencing of computations that may throw but touch no state. *)
Definition cbind {A B} (c : completion A) (k : A -> completion B)
  : completion B :=
  match c with
  | Return a => k a
  | Throw e => Throw e
  end.

(** Running a state-free effect of the package manager on the files. *)
Definition on_files (f : gmap string string -> completion (gmap string string))
  : M unit :=
  fun w =>
    match f (files w) with
    | Return fs => (Return tt, World fs (calls w))
    | Throw e => (Throw e, w)
    end.

(* ================================================================== *)
(** * Literal text replacement *)

(** Every occurrence of [search] in [text], found left to right and not
    overlapping, is replaced by [replacement].  [skip] counts the
    characters of a match still to be dropped. *)
Fixpoint replace_from (search replacement : string) (skip : nat)
    (text : string) : string :=
  match text with
  | EmptyString => EmptyString
  | String c rest =>
      match skip with
      | S k => replace_from search replacement k rest
      | O =>
          if startsWith search text then
            replacement +:+
              replace_from search replacement (String.length search - 1) rest
          else String c (replace_from search replacement O rest)
      end
  end.

Definition replace_all (search replacement text : string) : string :=
  match search with
  | EmptyString => text
  | String _ _ => replace_from search replacement O text
  end.

(** Modelled from the spec: [patchFile] is imported from [./scripts], which
    is not among the sources.  The spec gives the driver operation
    [patchFile(path, searchText, replaceText)] and describes its use as a
    textual patch in place that replaces every literal occurrence of the
    search text.  A file that cannot be read is a failure of the driver. *)
Definition patchFile (file search replacement : string) : M unit :=
  (record_call (PatchFile file search replacement) ;;;
   on_files (fun fs =>
     match fs !! file with
     | Some text => Return (<[file := replace_all search replacement text]> fs)
     | None => Throw (ForeignError "ENOENT")
     end))%js.

(* ================================================================== *)
(** * The manifest *)

Module IPackageJson.
Record t : Type := mk {
  name : string;
  version : option string;
  dependencies : option (gmap string string);
  devDependencies : option (gmap string string);
  scripts : option (gmap string string);
  bin : option Json;
  workspaces : option Json;
  osd_pm : option Json   (* the ['@osd/pm'] key *)
}.
End IPackageJson.

(** What a dependency block that may be missing declares for a name. *)
Definition declares (block : option (gmap string string)) (depName : string)
  : option string :=
  block ≫= (fun dependencies => dependencies !! depName).

(** [yarn workspaces info]: member name to its [workspaceDependencies],
    in the key order of the object. *)
Definition workspaces_info : Type := list (string * list string).

(** [new Set(keys)]: insertion order, the first occurrence kept. *)
Fixpoint Set_new (keys : list string) : list string :=
  match keys with
  | [] => []
  | k :: rest => k :: filter (fun x => x ≠ k) (Set_new rest)
  end.

Definition Set_delete (w : string) (s : list string) : list string :=
  filter (fun x => x ≠ w) s.

(* ================================================================== *)
(** * The Project class *)

Module Project.

Record t : Type := mk {
  json : IPackageJson.t;
  packageJsonLocation : string;
  nodeModulesLocation : string;
  targetLocation : string;
  path : string;
  version : option string;
  allDependencies : gmap string string;
  productionDependencies : gmap string string;
  devDependencies : gmap string string;
  scripts : gmap string string;
  customDefinitions : Json;
  buildTargets : list string;
  isWorkspaceRoot : bool;
  isWorkspaceProject : bool
}.

(** [get name()]. *)
Definition name (this : t) : string := IPackageJson.name (json this).

(** The two public role flags are assigned by the caller that scans the
    workspace. *)
Definition set_isWorkspaceRoot (b : bool) (this : t) : t :=
  mk (json this) (packageJsonLocation this) (nodeModulesLocation this)
     (targetLocation this) (path this) (version this)
     (allDependencies this) (productionDependencies this)
     (devDependencies this) (scripts this) (customDefinitions this)
     (buildTargets this) b (isWorkspaceProject this).

Definition set_isWorkspaceProject (b : bool) (this : t) : t :=
  mk (json this) (packageJsonLocation this) (nodeModulesLocation this)
     (targetLocation this) (path this) (version this)
     (allDependencies this) (productionDependencies this)
     (devDependencies this) (scripts this) (customDefinitions this)
     (buildTargets this) (isWorkspaceRoot this) b.

(** The three wordings of a dependency mismatch. *)
Definition msg_should_use_workspace : string :=
  "but should be using a workspace".
Definition msg_wrong_link_path : string :=
  "using 'link:', but the path is wrong".
Definition msg_not_local : string :=
  "but it's not using the local package".

(** [`"${name}": "${version}"`]. *)
Definition manifest_fragment (depName versionText : string) : string :=
  quote +:+ depName +:+ quote +:+ ": " +:+ quote +:+ versionText +:+ quote.

Section Model.

(** Node's [path.resolve(a, b)] and [path.relative(from, to)]. *)
Variable resolve : string -> string -> string.
Variable relative : string -> string -> string.
(** Node's [util.inspect]. *)
Variable inspect : Json -> string.
(** [isLinkDependency] of [./package_json], applied to a declared
    version that may be [undefined]. *)
Variable isLinkDependency : option string -> completion bool.
(** [BuildTargets] of [./targeted_build]: the enumeration, in order. *)
Variable BuildTargets : list string.
(** What running yarn in a directory does to the files
    ([installInDir] of [./scripts]). *)
Variable yarn_install :
  string -> option (list string) -> option bool ->
  gmap string string -> completion (gmap string string).
(** What [yarn workspaces info] answers ([yarnWorkspacesInfo] of
    [./scripts]). *)
Variable yarn_workspaces :
  string -> gmap string string -> completion workspaces_info.

Definition installInDir (dir : string) (extraArgs : option (list string))
    (useAdd : option bool) : M unit :=
  (record_call (InstallInDir dir extraArgs useAdd) ;;;
   on_files (yarn_install dir extraArgs useAdd))%js.

Definition yarnWorkspacesInfo (dir : string) : M workspaces_info :=
  (record_call (YarnWorkspacesInfo dir) ;;;
   fun w => (yarn_workspaces dir (files w), w))%js.

(** [for (const target of BuildTargets)
       if (customDefinitions[target]) buildTargets.push(target)]. *)
Definition select_buildTargets (customDefinitions : Json) : list string :=
  filter (fun target => truthy (get_prop customDefinitions target) = true)
         BuildTargets.

(** [new Project(packageJson, projectPath)]. *)
Definition new (packageJson : IPackageJson.t) (projectPath : string) : t :=
  let productionDependencies :=
    default ∅ (IPackageJson.dependencies packageJson) in
  let devDependencies :=
    default ∅ (IPackageJson.devDependencies packageJson) in
  let customDefinitions :=
    if truthy (IPackageJson.osd_pm packageJson)
    then default (JObject []) (IPackageJson.osd_pm packageJson)
    else JObject [] in
  {| json := packageJson;
     path := projectPath;
     packageJsonLocation := resolve projectPath "package.json";
     nodeModulesLocation := resolve projectPath "node_modules";
     targetLocation := resolve projectPath "target";
     version := IPackageJson.version packageJson;
     productionDependencies := productionDependencies;
     devDependencies := devDependencies;
     (* { ...devDependencies, ...productionDependencies } *)
     allDependencies := productionDependencies ∪ devDependencies;
     isWorkspaceRoot :=
       bool_decide (is_Some (IPackageJson.workspaces packageJson));
     scripts := default ∅ (IPackageJson.scripts packageJson);
     customDefinitions := customDefinitions;
     buildTargets := select_buildTargets customDefinitions;
     isWorkspaceProject := false |}.

Definition expectedVersionInPackageJson (this project : t)
    (dependentProjectIsInWorkspace : bool) : option string :=
  if dependentProjectIsInWorkspace
  then IPackageJson.version (json project)
  else Some ("link:" +:+ normalizePath (relative (path this) (path project))).

Definition problemMsg (versionInPackageJson : option string)
    (dependentProjectIsInWorkspace : bool) : completion string :=
  cbind (isLinkDependency versionInPackageJson) (fun isLink =>
    if isLink && dependentProjectIsInWorkspace
    then Return msg_should_use_workspace
    else
      cbind (isLinkDependency versionInPackageJson) (fun isLink' =>
        if isLink' then Return msg_wrong_link_path
        else Return msg_not_local)).

Definition mismatch (this project : t)
    (versionInPackageJson expected : option string) (msg : string) : exn :=
  CliError
    ("[" +:+ name this +:+ "] depends on [" +:+ name project +:+ "] "
       +:+ msg +:+ ". Update its package.json to the expected value below.")
    [ ("actual",
       manifest_fragment (name project) (render versionInPackageJson));
      ("expected", manifest_fragment (name project) (render expected));
      ("package",
       name this +:+ " (" +:+ packageJsonLocation this +:+ ")") ].

Definition ensureValidProjectDependency (this project : t)
    (dependentProjectIsInWorkspace : bool) : completion unit :=
  let versionInPackageJson := allDependencies this !! name project in
  let expected :=
    expectedVersionInPackageJson this project
      dependentProjectIsInWorkspace in
  (* No issues! *)
  if bool_decide (versionInPackageJson = expected) then Return tt
  else
    cbind (problemMsg versionInPackageJson dependentProjectIsInWorkspace)
      (fun msg =>
         Throw (mismatch this project versionInPackageJson expected msg)).

(** [resolve(this.path, v)]: Node rejects an argument that is not a
    string. *)
Definition resolve_value (this : t) (v : option Json) : completion string :=
  match v with
  | Some (JString s) => Return (resolve (path this) s)
  | _ => Throw (ForeignError "ERR_INVALID_ARG_TYPE")
  end.

Fixpoint collect_bins (this : t) (raw : Json) (binNames : list string)
    (binsConfig : gmap string string) : completion (gmap string string) :=
  match binNames with
  | [] => Return binsConfig
  | binName :: rest =>
      cbind (resolve_value this (get_prop raw binName)) (fun p =>
        collect_bins this raw rest (<[binName := p]> binsConfig))
  end.

Definition invalid_bin (this : t) (raw : Json) : exn :=
  CliError
    ("[" +:+ name this +:+ "] has an invalid " +:+ quote +:+ "bin"
       +:+ quote +:+ " field in its package.json, "
       +:+ "expected an object or a string")
    [ ("binConfig", inspect raw);
      ("package",
       name this +:+ " (" +:+ packageJsonLocation this +:+ ")") ].

Definition getExecutables (this : t) : completion (gmap string string) :=
  match IPackageJson.bin (json this) with
  | None => Return ∅
  | Some raw =>
      if negb (truthy (Some raw)) then Return ∅
      else
        match typeof raw with
        | TString =>
            cbind (resolve_value this (Some raw)) (fun p =>
              Return {[ name this := p ]})
        | TObject => collect_bins this raw (Object_keys raw) ∅
        | TOther => Throw (invalid_bin this raw)
        end
  end.

(** [workspace.workspaceDependencies.forEach((w) =>
       unusedWorkspaces.delete(w))], for every member in turn. *)
Definition drop_used (workspacesInfo : workspaces_info)
    (unusedWorkspaces : list string) : list string :=
  foldl (fun unused name =>
           foldl (fun unused' w => Set_delete w unused') unused
                 (default [] (assoc name workspacesInfo)))
        unusedWorkspaces workspacesInfo.*1.

Definition remove_link_if_extraneous (this : t) (name : string) : M unit :=
  let nodeModulesPath := resolve (nodeModulesLocation this) name in
  let isDependency :=
    match IPackageJson.dependencies (json this) with
    | Some dependencies => bool_decide (is_Some (dependencies !! name))
    | None => false
    end in
  let isDevDependency :=
    match IPackageJson.devDependencies (json this) with
    | Some devDependencies =>
        bool_decide (is_Some (devDependencies !! name))
    | None => false
    end in
  if negb isDependency && negb isDevDependency then
    (exists_ <- existsSync nodeModulesPath ;;
     if exists_ : bool then unlinkSync nodeModulesPath else ret tt)%js
  else ret tt.

Fixpoint forEach (f : string -> M unit) (l : list string) : M unit :=
  match l with
  | [] => ret tt
  | x :: rest => (f x ;;; forEach f rest)%js
  end.

Definition removeExtraneousNodeModules (this : t) : M unit :=
  (* this is only relevant for the root workspace *)
  if negb (isWorkspaceRoot this) then ret tt
  else
    (workspacesInfo <- yarnWorkspacesInfo (path this) ;;
     let unusedWorkspaces :=
       drop_used workspacesInfo (Set_new workspacesInfo.*1) in
     forEach (remove_link_if_extraneous this) unusedWorkspaces)%js.

Definition rangeToUse (version : string) (range : option string) : string :=
  match range with
  | Some r => if bool_decide (r = "") then "^" +:+ version else r
  | None => "^" +:+ version
  end.

Definition installDependencyVersion (this : t) (depName version : string)
    (dev : bool) (range : option string) : M unit :=
  let rangeToUse := rangeToUse version range in
  let extraArgs :=
    [depName +:+ "@" +:+ version] ++ (if dev then ["--dev"] else []) in
  ((if isWorkspaceProject this
    then installInDir (path this) None None
    else installInDir (path this) (Some extraArgs) (Some true)) ;;;
   patchFile (packageJsonLocation this)
     (manifest_fragment depName version)
     (manifest_fragment depName rangeToUse) ;;;
   patchFile (resolve (path this) "yarn.lock")
     (depName +:+ "@" +:+ version)
     (depName +:+ "@" +:+ rangeToUse) ;;;
   removeExtraneousNodeModules this)%js.

(** [this.buildTargets.length > 0]. *)
Definition hasBuildTargets (this : t) : bool :=
  bool_decide (0 < length (buildTargets this))%nat.

(** [Object.keys(this.allDependencies).length > 0]. *)
Definition hasDependencies (this : t) : bool :=
  bool_decide (0 < size (allDependencies this))%nat.

(** [buildTargetedPackage] of [./targeted_build] and what it answers. *)
Variable BuildResult : Type.
Variable buildTargetedPackage : t -> option bool -> M BuildResult.

(** The answer is [false] when nothing is to be built and the answer of
    [buildTargetedPackage({ pkg: this, sourceMaps })] otherwise. *)
Definition buildForTargets (this : t) (sourceMaps : option bool)
  : M (bool + BuildResult) :=
  if negb (hasBuildTargets this) then ret (inl false)
  else (built <- buildTargetedPackage this sourceMaps ;; ret (inr built))%js.

(** [installInDir(this.path, extraArgs)] and then the pruning. *)
Definition installDependencies (this : t) (extraArgs : list string) : M unit :=
  (installInDir (path this) (Some extraArgs) None ;;;
   removeExtraneousNodeModules this)%js.

End Model.

End Project.

(* ================================================================== *)
(** * What a literal patch must achieve *)

(** [patched search replacement text text']: [text'] is [text] with the
    occurrences of [search], taken left to right, each replaced by
    [replacement], and every character outside them kept. *)
Inductive patched (search replacement : string) : string -> string -> Prop :=
| patched_none text :
    (forall pre post, text <> pre +:+ search +:+ post) ->
    patched search replacement text text
| patched_first pre post post' :
    (forall pre' post'',
        pre +:+ search +:+ post = pre' +:+ search +:+ post'' ->
        (String.length pre <= String.length pre')%nat) ->
    patched search replacement post post' ->
    patched search replacement
      (pre +:+ search +:+ post) (pre +:+ replacement +:+ post').

(* ================================================================== *)
(** * Stand-ins for the environment, for closed examples *)

Module Posix.

(** The segments of a path between forward slashes. *)
Fixpoint segments_from (cur path : string) : list string :=
  match path with
  | EmptyString => [cur]
  | String c rest =>
      if bool_decide (c = "/"%char) then cur :: segments_from "" rest
      else segments_from (cur +:+ String c EmptyString) rest
  end.

(** Dropping empty and [.] segments and resolving [..]; [stack] holds
    the segments kept so far, last first. *)
Fixpoint normalize_from (stack segs : list string) : list string :=
  match segs with
  | [] => reverse stack
  | seg :: rest =>
      if bool_decide (seg = "") || bool_decide (seg = ".")
      then normalize_from stack rest
      else if bool_decide (seg = "..") then normalize_from (tail stack) rest
      else normalize_from (seg :: stack) rest
  end.

Definition normalize (path : string) : list string :=
  normalize_from [] (segments_from "" path).

Fixpoint join (segs : list string) : string :=
  match segs with
  | [] => ""
  | [seg] => seg
  | seg :: rest => seg +:+ "/" +:+ join rest
  end.

(** [path.resolve(base, p)] on POSIX when [base] is absolute. *)
Definition resolve (base p : string) : string :=
  "/" +:+ join (normalize
                  (if startsWith "/" p then p else base +:+ "/" +:+ p)).

Fixpoint strip_common (xs ys : list string) : list string * list string :=
  match xs, ys with
  | x :: xs', y :: ys' =>
      if bool_decide (x = y) then strip_common xs' ys' else (xs, ys)
  | _, _ => (xs, ys)
  end.

(** [path.relative(from, to)] on POSIX for absolute paths. *)
Definition relative (from to : string) : string :=
  let '(up, down) := strip_common (normalize from) (normalize to) in
  join (replicate (length up) ".." ++ down).

End Posix.

(* ================================================================== *)
(** * Vocabulary of the statements *)

(** The root names [n] in [dependencies] or in [devDependencies]. *)
Definition root_declares (this : Project.t) (n : string) : Prop :=
  is_Some (declares (IPackageJson.dependencies (Project.json this)) n)
  \/ is_Some (declares (IPackageJson.devDependencies (Project.json this)) n).

#[global] Instance root_declares_dec this n : Decision (root_declares this n).
Proof. unfold root_declares. apply _. Defined.

Section Vocabulary.

Variable resolve : string -> string -> string.

(** What [resolve(this.path, v)] makes of a property that is a string. *)
Definition resolved (this : Project.t) (v : option Json) : option string :=
  match v with
  | Some (JString s) => Some (resolve (Project.path this) s)
  | _ => None
  end.

(** Where the root keeps the link of the member [n]. *)
Definition link (this : Project.t) (n : string) : string :=
  resolve (Project.nodeModulesLocation this) n.

(** The files once the links of [names] that the root does not declare
    are removed. *)
Definition prune (this : Project.t) (fs : gmap string string)
    (names : list string) : gmap string string :=
  foldl (fun fs' n => if decide (root_declares this n) then fs'
                      else delete (link this n) fs') fs names.

End Vocabulary.

(** A member whose link is to go: no member lists it among its workspace
    dependencies and the root declares it in neither block. *)
Definition extraneous (this : Project.t) (workspacesInfo : workspaces_info)
    (n : string) : Prop :=
  n ∈ workspacesInfo.*1
  /\ (forall member, member ∈ workspacesInfo.*1 ->
                     n ∉ default [] (assoc member workspacesInfo))
  /\ ~ root_declares this n.

(** The text of a manifest entry, a quoted name, a colon, a space and a
    quoted value, written out character by character. *)
Definition entry_text (entryName value : string) : string :=
  String "034"%char
    (entryName
       +:+ String "034"%char
             (String ":"%char
                (String " "%char
                   (String "034"%char
                      (value +:+ String "034"%char EmptyString))))).

(** Two adjacent forward slashes occur in the string. *)
Definition has_double_slash (s : string) : Prop :=
  exists pre post, s = pre +:+ "//" +:+ post.

(** Modelled from the spec: [isLinkDependency] is imported from
    [./package_json], which is not among the sources.  The spec calls a
    declaration a link reference when it names a local path, which the
    validator writes with the [link:] prefix.  This is the helper on a
    declaration that is there. *)
Definition isLinkDependency_spec (depVersion : string) : bool :=
  startsWith "link:" depVersion.

(** What the helper does with a missing declaration is said nowhere.  Two
    stand-ins cover the closed examples: one that answers no, and one that
    throws as a method call on [undefined] does. *)
Definition isLinkDependency_lenient (depVersion : option string)
  : completion bool :=
  Return match depVersion with
         | Some v => isLinkDependency_spec v
         | None => false
         end.

Definition isLinkDependency_strict (depVersion : option string)
  : completion bool :=
  match depVersion with
  | Some v => Return (isLinkDependency_spec v)
  | None => Throw (ForeignError "TypeError")
  end.

(** A rendering of scalars in the manner of [util.inspect]. *)
Definition inspect_plain (v : Json) : string :=
  match v with
  | JNull => "null"
  | JBool true => "true"
  | JBool false => "false"
  | JNumber n =>
      (if n <? 0 then "-" else "") +:+ index_key (Z.to_nat (Z.abs n))
  | JString s => "'" +:+ s +:+ "'"
  | JArray _ => "[Array]"
  | JObject _ => "[Object]"
  end.

(** Modelled from the spec: the enumeration [BuildTargets] is imported
    from [./targeted_build], which is not among the sources.  The spec
    names the node-targeted and the web-targeted flavour. *)
Definition BuildTargets_spec : list string := ["web"; "node"].

(** A yarn run that finds everything installed and touches no file. *)
Definition yarn_idle (dir : string) (extraArgs : option (list string))
    (useAdd : option bool) (fs : gmap string string)
  : completion (gmap string string) :=
  Return fs.

(** A workspace of three members in which only [a] depends on [b]. *)
Definition info_abc : workspaces_info :=
  [("a", ["b"]); ("b", []); ("c", [])].

Definition yarn_workspaces_abc (dir : string) (fs : gmap string string)
  : completion workspaces_info :=
  Return info_abc.

Definition manifest_of (name version : string)
    (dependencies devDependencies : option (gmap string string))
    (bin workspaces osd_pm : option Json) : IPackageJson.t :=
  IPackageJson.mk name (Some version) dependencies devDependencies None
    bin workspaces osd_pm.

(* ================================================================== *)
(** * A sample workspace *)

Module Sample.

Definition new : IPackageJson.t -> string -> Project.t :=
  Project.new Posix.resolve BuildTargets_spec.

(** A library with an executable and both build targets. *)
Definition lib_json : IPackageJson.t :=
  manifest_of "lib" "2.3.0" None None (Some (JString "./bin/cli.js")) None
    (Some (JObject [("node", JBool true); ("web", JBool true)])).
Definition lib_json_reordered : IPackageJson.t :=
  manifest_of "lib" "2.3.0" None None (Some (JString "./bin/cli.js")) None
    (Some (JObject [("web", JBool true); ("node", JBool true)])).
Definition lib : Project.t := new lib_json "/ws/libs/lib".

(** An application that links the library and declares lodash twice. *)
Definition app_json : IPackageJson.t :=
  manifest_of "app" "1.0.0"
    (Some {[ "lib" := "link:../libs/lib"; "lodash" := "^4.17.21" ]})
    (Some {[ "lodash" := "^3.0.0"; "mocha" := "^8.0.0" ]})
    None None None.
Definition app : Project.t := new app_json "/ws/app".

(** The same application taking the library from the registry, and one
    that does not declare it. *)
Definition app_registry : Project.t :=
  new (manifest_of "app" "1.0.0" (Some {[ "lib" := "^1.0.0" ]}) None
         None None None) "/ws/app".
Definition app_undeclared_json : IPackageJson.t :=
  manifest_of "app" "1.0.0" None (Some {[ "mocha" := "^8.0.0" ]})
    None None None.
Definition app_undeclared : Project.t := new app_undeclared_json "/ws/app".

(** Packages with the other shapes of [bin]. *)
Definition with_bin (bin : Json) : Project.t :=
  new (manifest_of "foo" "0.1.0" None None (Some bin) None None) "/ws/foo".
Definition foo_number : Project.t := with_bin (JNumber 42).
Definition foo_array : Project.t := with_bin (JArray [JString "./cli.js"]).
Definition foo_object : Project.t :=
  with_bin (JObject [("foo", JString "./bin/foo.js");
                     ("bar", JString "bin/bar.js")]).

(** A workspace root that declares no dependency, with the links yarn
    made for the members a, b and c. *)
Definition root : Project.t :=
  new (manifest_of "root" "1.0.0" None None None
         (Some (JArray [JString "packages/*"])) None) "/ws".
Definition world_links : world :=
  World {[ "/ws/node_modules/a" := "../packages/a";
           "/ws/node_modules/b" := "../packages/b";
           "/ws/node_modules/c" := "../packages/c" ]} [].

(** The files of the application after [yarn add lodash@4.17.21], in a
    manifest that also mentions that version in a script. *)
Definition manifest_text (lodashRange : string) : string :=
  "{ " +:+ entry_text "lodash" lodashRange +:+ ", "
       +:+ entry_text "pin" "yarn add lodash@4.17.21"
       +:+ " }".
Definition world_installed : world :=
  World {[ "/ws/app/package.json" := manifest_text "4.17.21";
           "/ws/app/yarn.lock" := "lodash@4.17.21: resolved" ]} [].

(** The library as a workspace member. *)
Definition lib_member : Project.t := Project.set_isWorkspaceProject true lib.
Definition world_member : world :=
  World {[ "/ws/libs/lib/package.json" :=
             "{ " +:+ entry_text "lodash" "4.17.21" +:+ " }";
           "/ws/libs/lib/yarn.lock" := "lodash@4.17.21: resolved" ]} [].

End Sample.

(** The manifest with [depName] declared as [versionText] in
    [dependencies]. *)
Definition declare_dependency (depName versionText : string)
    (packageJson : IPackageJson.t) : IPackageJson.t :=
  IPackageJson.mk
    (IPackageJson.name packageJson) (IPackageJson.version packageJson)
    (Some (<[depName := versionText]>
             (default ∅ (IPackageJson.dependencies packageJson))))
    (IPackageJson.devDependencies packageJson)
    (IPackageJson.scripts packageJson) (IPackageJson.bin packageJson)
    (IPackageJson.workspaces packageJson) (IPackageJson.osd_pm packageJson).

Module Cases.

(** A yarn that fails, and a workspace query that fails. *)
Definition yarn_failing (dir : string) (extraArgs : option (list string))
    (useAdd : option bool) (fs : gmap string string)
  : completion (gmap string string) :=
  Throw (ForeignError "yarn exited with code 1").

Definition yarn_workspaces_failing (dir : string) (fs : gmap string string)
  : completion workspaces_info :=
  Throw (ForeignError "yarn workspaces info failed").

(** The members a, b and c listed in another order. *)
Definition info_cba : workspaces_info :=
  [("c", []); ("b", []); ("a", ["b"])].

Definition yarn_workspaces_cba (dir : string) (fs : gmap string string)
  : completion workspaces_info :=
  Return info_cba.

(** An application whose production block takes the library from the
    registry while its development block links it. *)
Definition app_shadowed_json : IPackageJson.t :=
  manifest_of "app" "1.0.0" (Some {[ "lib" := "^1.0.0" ]})
    (Some {[ "lib" := "link:../libs/lib" ]}) None None None.

(** An application that links the library for development only. *)
Definition app_dev_link_json : IPackageJson.t :=
  manifest_of "app" "1.0.0" None (Some {[ "lib" := "link:../libs/lib" ]})
    None None None.

(** A [bin] mapping with a value that is no string. *)
Definition foo_bad_member : Project.t :=
  Sample.with_bin (JObject [("foo", JString "./bin/foo.js");
                            ("bar", JNumber 1)]).

(** A library whose manifest gives no version. *)
Definition lib_versionless : Project.t :=
  Sample.new (IPackageJson.mk "lib" None None None None None None None)
    "/ws/libs/lib".

(** A helper that rejects a declaration. *)
Definition isLinkDependency_failing (depVersion : option string)
  : completion bool :=
  Throw (ForeignError "TypeError").

(** A build that records nothing and answers with its argument. *)
Definition build_echo (pkg : Project.t) (sourceMaps : option bool)
  : M (option bool) :=
  ret sourceMaps.

End Cases.

(* ================================================================== *)
(** * Facts about strings *)

Lemma append_cons (a : ascii) (s t : string) :
  String a s +:+ t = String a (s +:+ t).
Proof. reflexivity. Qed.

Lemma append_empty_l (s : string) : "" +:+ s = s.
Proof. reflexivity. Qed.

Lemma append_assoc (s t u : string) : (s +:+ t) +:+ u = s +:+ (t +:+ u).
Proof.
  induction s as [|a s IH]; [reflexivity|].
  rewrite !append_cons. by rewrite IH.
Qed.

Lemma length_append (s t : string) :
  String.length (s +:+ t) = (String.length s + String.length t)%nat.
Proof.
  induction s as [|a s IH]; [reflexivity|].
  rewrite append_cons. simpl. by rewrite IH.
Qed.

Lemma startsWith_append (p post : string) : startsWith p (p +:+ post) = true.
Proof.
  induction p as [|a p IH]; [reflexivity|].
  rewrite append_cons. simpl. rewrite bool_decide_true by done. exact IH.
Qed.

Lemma startsWith_inv (p s : string) :
  startsWith p s = true -> exists post, s = p +:+ post.
Proof.
  revert s. induction p as [|a p IH]; intros s H.
  - by exists s.
  - destruct s as [|b s]; [discriminate|]. simpl in H.
    apply andb_prop in H as [Hab Hps].
    apply bool_decide_eq_true in Hab as ->.
    destruct (IH _ Hps) as [post ->]. by exists post.
Qed.

(* ================================================================== *)
(** * Path normalisation *)

Lemma is_sep_backslash : is_sep "\"%char = true.
Proof. reflexivity. Qed.

Lemma normalizePath_from_no_backslash (in_run : bool) (path : string) (c : ascii) :
  c ∈ chars (normalizePath_from in_run path) -> c <> "\"%char.
Proof.
  revert in_run. induction path as [|a path IH]; intros in_run; simpl.
  - by intros ?%elem_of_nil.
  - destruct (is_sep a) eqn:Ha.
    + destruct in_run; [by apply IH|].
      cbn. intros [->|H]%elem_of_cons; [done|]. by eapply IH.
    + cbn. intros [->|H]%elem_of_cons; [|by eapply IH].
      intros ->. by rewrite is_sep_backslash in Ha.
Qed.


(** Once a run is open, the output does not depend on a leading slash. *)
Lemma normalizePath_from_idem (in_run : bool) (path : string) :
  normalizePath_from in_run (normalizePath_from in_run path)
  = normalizePath_from in_run path.
Proof.
  revert in_run. induction path as [|a path IH]; intros in_run; [done|].
  simpl. destruct (is_sep a) eqn:Ha.
  - destruct in_run; [apply IH|]. simpl. f_equal. apply IH.
  - simpl. rewrite Ha. f_equal. apply IH.
Qed.

Lemma normalizePath_idempotent (path : string) :
  normalizePath (normalizePath path) = normalizePath path.
Proof. apply normalizePath_from_idem. Qed.

(* ================================================================== *)
(** * Association lists as objects *)

Lemma assoc_Some_elem {A} (k : string) (l : list (string * A)) (v : A) :
  assoc k l = Some v -> (k, v) ∈ l.
Proof.
  induction l as [|[k' v'] l IH]; simpl; [done|].
  case_bool_decide as Hk.
  - intros [= Hv]. rewrite Hk, Hv. apply elem_of_cons. by left.
  - intros H. apply elem_of_cons. right. by apply IH.
Qed.

Lemma assoc_None_keys {A} (k : string) (l : list (string * A)) :
  assoc k l = None <-> k ∉ l.*1.
Proof.
  induction l as [|[k' v'] l IH]; simpl.
  - split; [intros _; apply not_elem_of_nil|done].
  - case_bool_decide as Hk.
    + split; [done|]. intros H. exfalso. apply H. rewrite Hk.
      apply elem_of_cons. by left.
    + rewrite IH, not_elem_of_cons.
      split; [intros ?; split; [congruence|done]|by intros [_ ?]].
Qed.

Lemma assoc_elem_NoDup {A} (k : string) (l : list (string * A)) (v : A) :
  NoDup l.*1 -> (k, v) ∈ l -> assoc k l = Some v.
Proof.
  induction l as [|[k' v'] l IH]; simpl.
  - by intros _ ?%elem_of_nil.
  - intros [Hk' Hnd]%NoDup_cons [Heq|Hin]%elem_of_cons.
    + injection Heq as -> ->. by rewrite bool_decide_true.
    + case_bool_decide as Hk; [|by apply IH].
      subst. exfalso. apply Hk'.
      apply list_elem_of_fmap. by exists (k, v).
Qed.

(** The order in which an object lists its keys does not show in a lookup. *)
Lemma assoc_Permutation {A} (k : string) (l l' : list (string * A)) :
  NoDup l.*1 -> l ≡ₚ l' -> assoc k l = assoc k l'.
Proof.
  intros Hnd Hperm.
  assert (NoDup l'.*1) as Hnd' by (by rewrite <-Hperm).
  destruct (assoc k l) as [v|] eqn:Hl.
  - symmetry. apply assoc_elem_NoDup; [done|].
    rewrite <-Hperm. by apply assoc_Some_elem.
  - symmetry. apply assoc_None_keys. rewrite <-Hperm.
    by apply assoc_None_keys.
Qed.

(* ================================================================== *)
(** * Construction and validation *)

Section Validation.

Variable resolve : string -> string -> string.
Variable relative : string -> string -> string.
Variable isLinkDependency : option string -> completion bool.
Variable BuildTargets : list string.

Abbreviation new := (Project.new resolve BuildTargets).
Abbreviation ensureValidProjectDependency :=
  (Project.ensureValidProjectDependency relative isLinkDependency).

Lemma allDependencies_new (packageJson : IPackageJson.t) (projectPath k : string) :
  Project.allDependencies (new packageJson projectPath) !! k
  = match declares (IPackageJson.dependencies packageJson) k with
    | Some v => Some v
    | None => declares (IPackageJson.devDependencies packageJson) k
    end.
Proof.
  cbn [Project.new Project.allDependencies]. rewrite lookup_union.
  destruct (IPackageJson.dependencies packageJson) as [deps|],
           (IPackageJson.devDependencies packageJson) as [devs|];
    unfold declares; simpl; rewrite ?lookup_empty;
    try destruct (deps !! k); try destruct (devs !! k); done.
Qed.

(** C6: when [dependencies] and [devDependencies] declare the same key,
    [allDependencies] holds the production value; a key declared by one
    block only keeps the value declared there. *)
Theorem C6_production_wins (packageJson : IPackageJson.t) (projectPath k : string) :
  let all := Project.allDependencies (new packageJson projectPath) in
  let production := declares (IPackageJson.dependencies packageJson) k in
  let development := declares (IPackageJson.devDependencies packageJson) k in
  (forall v w, production = Some v -> development = Some w -> all !! k = Some v)
  /\ (forall v, production = Some v -> development = None -> all !! k = Some v)
  /\ (forall w, production = None -> development = Some w -> all !! k = Some w).
Proof.
  cbv zeta. rewrite allDependencies_new.
  repeat split; intros; repeat match goal with H : _ = _ |- _ => rewrite H end;
    reflexivity.
Qed.

Lemma customDefinitions_new_object (packageJson : IPackageJson.t)
    (projectPath : string) (members : list (string * Json)) :
  IPackageJson.osd_pm packageJson = Some (JObject members) ->
  Project.customDefinitions (new packageJson projectPath) = JObject members.
Proof. intros H. cbn [Project.new Project.customDefinitions]. by rewrite H. Qed.

(** The custom definitions of a constructed project answer a lookup as
    the manifest's [@osd/pm] block does; a falsy or missing block answers
    nothing. *)
Lemma get_prop_customDefinitions (packageJson : IPackageJson.t)
    (projectPath target : string) :
  get_prop (Project.customDefinitions (new packageJson projectPath)) target
  = IPackageJson.osd_pm packageJson ≫= (fun block => get_prop block target).
Proof.
  cbn [Project.new Project.customDefinitions].
  destruct (IPackageJson.osd_pm packageJson) as [[|[]|n|s| |]|];
    cbn [truthy default mbind option_bind]; try reflexivity.
  - destruct (n =? 0); reflexivity.
  - case_bool_decide; reflexivity.
Qed.

Lemma truthy_Some_inv (o : option Json) :
  truthy o = true <-> exists v, o = Some v /\ truthy (Some v) = true.
Proof.
  split.
  - destruct o as [v|]; [by exists v|discriminate].
  - by intros (v & -> & H).
Qed.

Lemma elem_of_buildTargets (packageJson : IPackageJson.t)
    (projectPath target : string) :
  target ∈ Project.buildTargets (new packageJson projectPath)
  <-> target ∈ BuildTargets
      /\ exists block v,
          IPackageJson.osd_pm packageJson = Some block
          /\ get_prop block target = Some v
          /\ truthy (Some v) = true.
Proof.
  transitivity
    (target ∈ BuildTargets
     /\ truthy (get_prop (Project.customDefinitions (new packageJson projectPath))
                  target) = true).
  { cbn [Project.new Project.buildTargets].
    unfold Project.select_buildTargets. rewrite list_elem_of_filter.
    apply and_comm. }
  rewrite get_prop_customDefinitions, truthy_Some_inv.
  split; intros [Hin Hsel]; (split; [exact Hin|]).
  - destruct Hsel as (v & Hv & Htruthy).
    destruct (IPackageJson.osd_pm packageJson) as [block|]; [|discriminate].
    by exists block, v.
  - destruct Hsel as (block & v & -> & Hv & Htruthy). by exists v.
Qed.

(** C7: [buildTargets] holds exactly the members of the enumeration that
    are truthy keys of the manifest's custom-definitions block, in the
    order of the enumeration, whatever the order of the keys in the
    block. *)
Theorem C7_buildTargets (packageJson : IPackageJson.t) (projectPath : string) :
  let this := new packageJson projectPath in
  (forall target,
      target ∈ Project.buildTargets this
      <-> target ∈ BuildTargets
          /\ exists block v,
              IPackageJson.osd_pm packageJson = Some block
              /\ get_prop block target = Some v
              /\ truthy (Some v) = true)
  /\ (forall members target,
         IPackageJson.osd_pm packageJson = Some (JObject members) ->
         NoDup members.*1 ->
         target ∈ Project.buildTargets this
         <-> target ∈ BuildTargets
             /\ exists v, (target, v) ∈ members /\ truthy (Some v) = true)
  /\ sublist (Project.buildTargets this) BuildTargets
  /\ (forall packageJson' members members',
         IPackageJson.osd_pm packageJson = Some (JObject members) ->
         IPackageJson.osd_pm packageJson' = Some (JObject members') ->
         NoDup members.*1 ->
         members ≡ₚ members' ->
         Project.buildTargets (new packageJson' projectPath)
         = Project.buildTargets this).
Proof.
  cbv zeta. split; [|split; [|split]].
  - intros target. apply elem_of_buildTargets.
  - intros members target Hm Hnd. rewrite elem_of_buildTargets.
    split; intros [Hin Hsel]; (split; [exact Hin|]).
    + destruct Hsel as (block & v & Hblock & Hv & Htruthy).
      rewrite Hm in Hblock. injection Hblock as <-.
      exists v. split; [|done]. by apply assoc_Some_elem.
    + destruct Hsel as (v & Hv & Htruthy).
      exists (JObject members), v. split; [done|]. split; [|done].
      by apply assoc_elem_NoDup.
  - cbn [Project.new Project.buildTargets]. apply sublist_filter.
  - intros packageJson' members members' Hm Hm' Hnd Hperm.
    pose proof (customDefinitions_new_object _ projectPath _ Hm) as Hc.
    pose proof (customDefinitions_new_object _ projectPath _ Hm') as Hc'.
    cbn [Project.new Project.buildTargets Project.customDefinitions]
      in Hc, Hc' |- *.
    rewrite Hc, Hc'. unfold Project.select_buildTargets.
    apply list_filter_iff. intros target. unfold get_prop, own_entries.
    by rewrite (assoc_Permutation target members members').
Qed.

Lemma ensureValid_match (this project : Project.t) (flag : bool) :
  Project.allDependencies this !! Project.name project
  = Project.expectedVersionInPackageJson relative this project flag ->
  ensureValidProjectDependency this project flag = Return tt.
Proof.
  intros H. unfold Project.ensureValidProjectDependency.
  by rewrite bool_decide_true.
Qed.

Lemma ensureValid_mismatch (this project : Project.t) (flag : bool) :
  Project.allDependencies this !! Project.name project
  <> Project.expectedVersionInPackageJson relative this project flag ->
  exists e, ensureValidProjectDependency this project flag = Throw e.
Proof.
  intros H. unfold Project.ensureValidProjectDependency.
  rewrite bool_decide_false by done.
  destruct (Project.problemMsg _ _ _) as [msg|e]; cbn; eauto.
Qed.

Lemma entry_text_fragment (depName versionText : string) :
  Project.manifest_fragment depName versionText = entry_text depName versionText.
Proof. reflexivity. Qed.

(** The outcome of a mismatch, by what the helper makes of the
    declaration. *)
Lemma ensureValid_mismatch_outcome (this project : Project.t) (flag : bool) :
  let declared := Project.allDependencies this !! Project.name project in
  let expected := Project.expectedVersionInPackageJson relative this project flag in
  declared <> expected ->
  ensureValidProjectDependency this project flag
  = match isLinkDependency declared with
    | Return isLink =>
        Throw (CliError
          ("[" +:+ Project.name this +:+ "] depends on ["
             +:+ Project.name project +:+ "] "
             +:+ (if isLink
                  then if flag then "but should be using a workspace"
                       else "using 'link:', but the path is wrong"
                  else "but it's not using the local package")
             +:+ ". Update its package.json to the expected value below.")
          [ ("actual",
             entry_text (Project.name project) (default "undefined" declared));
            ("expected",
             entry_text (Project.name project) (default "undefined" expected));
            ("package",
             Project.name this +:+ " ("
               +:+ Project.packageJsonLocation this +:+ ")") ])
    | Throw e => Throw e
    end.
Proof.
  cbv zeta. intros Hne. unfold Project.ensureValidProjectDependency.
  rewrite bool_decide_false by done.
  unfold Project.problemMsg.
  destruct (isLinkDependency _) as [isLink|e]; [|reflexivity].
  cbn [cbind]. unfold Project.mismatch.
  destruct (Project.allDependencies this !! Project.name project),
    (Project.expectedVersionInPackageJson relative this project flag),
    isLink, flag; reflexivity.
Qed.


(** C4: when the declaration differs from the expected one, the check
    throws a [CliError] whose message is one of three wordings, chosen by
    whether the declaration is a link and whether the dependent is a
    workspace member; the error names the dependent and the dependency and
    carries the actual and the expected declaration as manifest text. *)
Theorem C4_mismatch_classified (this project : Project.t) (flag isLink : bool) :
  let declared := Project.allDependencies this !! Project.name project in
  let expected :=
    if flag then IPackageJson.version (Project.json project)
    else Some ("link:" +:+ normalizePath
                 (relative (Project.path this) (Project.path project))) in
  declared <> expected ->
  isLinkDependency declared = Return isLink ->
  ensureValidProjectDependency this project flag
  = Throw (CliError
      ("[" +:+ Project.name this +:+ "] depends on ["
         +:+ Project.name project +:+ "] "
         +:+ (if isLink
              then if flag then "but should be using a workspace"
                   else "using 'link:', but the path is wrong"
              else "but it's not using the local package")
         +:+ ". Update its package.json to the expected value below.")
      [ ("actual",
         entry_text (Project.name project) (default "undefined" declared));
        ("expected",
         entry_text (Project.name project) (default "undefined" expected));
        ("package",
         Project.name this +:+ " ("
           +:+ Project.packageJsonLocation this +:+ ")") ])
  /\ "but should be using a workspace" <> "using 'link:', but the path is wrong"
  /\ "but should be using a workspace" <> "but it's not using the local package"
  /\ "using 'link:', but the path is wrong"
     <> "but it's not using the local package".
Proof.
  cbv zeta. intros Hne Hlink. split; [|by repeat split].
  pose proof (ensureValid_mismatch_outcome this project flag Hne) as Hout.
  cbv zeta in Hout. rewrite Hlink in Hout. exact Hout.
Qed.

(** C10, as the code has it: when the dependent declares the dependency's
    name in neither block, its declaration is [undefined].  The check
    then returns silently only if the expected value is [undefined] as
    well, which is the case of a workspace member depending on a package
    whose manifest has no version.  Otherwise it does not return: the
    wording of the [CliError] is decided by what [isLinkDependency] makes
    of [undefined], "not using the local package" when it says no, and the
    error reports the missing declaration as the word undefined; an error
    thrown by the helper is the outcome instead. *)
Theorem C10_undeclared_dependency (packageJson : IPackageJson.t)
    (projectPath : string) (project : Project.t) (flag : bool) :
  let this := new packageJson projectPath in
  let depName := Project.name project in
  let expected :=
    if flag then IPackageJson.version (Project.json project)
    else Some ("link:" +:+ normalizePath
                 (relative projectPath (Project.path project))) in
  declares (IPackageJson.dependencies packageJson) depName = None ->
  declares (IPackageJson.devDependencies packageJson) depName = None ->
  (expected = None ->
   ensureValidProjectDependency this project flag = Return tt)
  /\ (expected <> None ->
      ensureValidProjectDependency this project flag <> Return tt
      /\ ensureValidProjectDependency this project flag
         = match isLinkDependency None with
           | Return isLink =>
               Throw (CliError
                 ("[" +:+ IPackageJson.name packageJson +:+ "] depends on ["
                    +:+ depName +:+ "] "
                    +:+ (if isLink
                         then if flag then "but should be using a workspace"
                              else "using 'link:', but the path is wrong"
                         else "but it's not using the local package")
                    +:+ ". Update its package.json to the expected value below.")
                 [ ("actual", entry_text depName "undefined");
                   ("expected",
                    entry_text depName (default "undefined" expected));
                   ("package",
                    IPackageJson.name packageJson +:+ " ("
                      +:+ resolve projectPath "package.json" +:+ ")") ])
           | Throw e => Throw e
           end).
Proof.
  cbv zeta. intros Hdeps Hdevs.
  assert (Project.allDependencies (new packageJson projectPath)
            !! Project.name project = None) as Hnone.
  { rewrite allDependencies_new. by rewrite Hdeps. }
  split.
  - intros Hexp. apply ensureValid_match. by rewrite Hnone.
  - intros Hexp.
    assert (Project.allDependencies (new packageJson projectPath)
              !! Project.name project
            <> Project.expectedVersionInPackageJson relative
                 (new packageJson projectPath) project flag) as Hne.
    { rewrite Hnone. intros Heq. apply Hexp. by rewrite Heq. }
    pose proof (ensureValid_mismatch_outcome _ project flag Hne) as Hout.
    cbv zeta in Hout. rewrite Hnone in Hout.
    split; [|exact Hout].
    rewrite Hout. by destruct (isLinkDependency None).
Qed.

End Validation.

(* ================================================================== *)
(** * Literal replacement meets its specification *)

Section Replacement.

Variables (a : ascii) (search' replacement : string).

Let search : string := String a search'.

Lemma replace_from_skip (x t : string) :
  replace_from search replacement (String.length x) (x +:+ t)
  = replace_from search replacement O t.
Proof.
  induction x as [|c x IH]; [reflexivity|].
  rewrite append_cons. exact IH.
Qed.

Lemma replace_from_hit (post : string) :
  replace_from search replacement O (search +:+ post)
  = replacement +:+ replace_from search replacement O post.
Proof.
  unfold search at 2. rewrite append_cons.
  cbn [replace_from]. fold search.
  change (String a (search' +:+ post)) with (search +:+ post).
  rewrite startsWith_append. f_equal.
  replace (String.length search - 1)%nat with (String.length search')
    by (unfold search; simpl; lia).
  apply replace_from_skip.
Qed.

Lemma replace_from_miss (c : ascii) (rest : string) :
  startsWith search (String c rest) = false ->
  replace_from search replacement O (String c rest)
  = String c (replace_from search replacement O rest).
Proof. intros H. cbn [replace_from]. by rewrite H. Qed.

Lemma no_occurrence_empty (pre post : string) :
  "" <> pre +:+ search +:+ post.
Proof.
  intros H. apply (f_equal String.length) in H.
  rewrite !length_append in H. unfold search in H. simpl in H. lia.
Qed.

(** A character that starts no match can be put in front of a patch. *)
Lemma patched_cons (c : ascii) (rest rest' : string) :
  startsWith search (String c rest) = false ->
  patched search replacement rest rest' ->
  patched search replacement (String c rest) (String c rest').
Proof.
  intros Hmiss Hp.
  assert (forall post, String c rest <> "" +:+ search +:+ post) as Hfront.
  { intros post Heq. rewrite append_empty_l in Heq.
    rewrite Heq, startsWith_append in Hmiss. discriminate. }
  destruct Hp as [text Hnone | pre post post' Hfirst Hp].
  - apply patched_none. intros [|c' pre] post Heq; [by eapply Hfront|].
    rewrite append_cons in Heq. injection Heq as _ Heq. by eapply Hnone.
  - change (String c (pre +:+ search +:+ post))
      with (String c pre +:+ search +:+ post).
    change (String c (pre +:+ replacement +:+ post'))
      with (String c pre +:+ replacement +:+ post').
    apply patched_first; [|exact Hp].
    intros [|c' pre'] post'' Heq.
    + exfalso. rewrite append_cons in Heq. by eapply Hfront.
    + rewrite !append_cons in Heq. injection Heq as _ Heq.
      apply Hfirst in Heq. simpl. lia.
Qed.

Lemma replace_from_patched (n : nat) (text : string) :
  (String.length text <= n)%nat ->
  patched search replacement text (replace_from search replacement O text).
Proof.
  revert text. induction n as [|n IH]; intros text Hlen.
  - destruct text; [|simpl in Hlen; lia].
    apply patched_none. apply no_occurrence_empty.
  - destruct text as [|c rest].
    { apply patched_none. apply no_occurrence_empty. }
    destruct (startsWith search (String c rest)) eqn:Hstart.
    + apply startsWith_inv in Hstart as [post Hpost]. rewrite Hpost.
      rewrite replace_from_hit.
      change (search +:+ post) with ("" +:+ search +:+ post).
      change (replacement +:+ replace_from search replacement O post)
        with ("" +:+ replacement +:+ replace_from search replacement O post).
      apply patched_first; [intros; simpl; lia|].
      apply IH. apply (f_equal String.length) in Hpost.
      rewrite length_append in Hpost. unfold search in Hpost.
      simpl in Hpost, Hlen. lia.
    + rewrite replace_from_miss by done.
      apply patched_cons; [done|]. apply IH. simpl in Hlen. lia.
Qed.

End Replacement.

(** The modelled patch replaces every occurrence and nothing else. *)
Lemma replace_all_patched (search replacement text : string) :
  search <> "" ->
  patched search replacement text (replace_all search replacement text).
Proof.
  destruct search as [|a search']; [done|]. intros _.
  unfold replace_all. by eapply replace_from_patched.
Qed.

Lemma manifest_fragment_nonempty (depName versionText : string) :
  Project.manifest_fragment depName versionText <> "".
Proof. discriminate. Qed.

Lemma at_version_nonempty (depName version : string) :
  depName +:+ "@" +:+ version <> "".
Proof.
  intros H. apply (f_equal String.length) in H.
  rewrite !length_append in H. simpl in H. lia.
Qed.

(* ================================================================== *)
(** * Executables *)

Section Executables.

Variable resolve : string -> string -> string.
Variable inspect : Json -> string.

Abbreviation getExecutables := (Project.getExecutables resolve inspect).

Abbreviation resolved := (resolved resolve).

Lemma collect_bins_strings (this : Project.t) (raw : Json)
    (binNames : list string) (binsConfig : gmap string string) :
  (forall k, k ∈ binNames -> exists s, get_prop raw k = Some (JString s)) ->
  exists m,
    Project.collect_bins resolve this raw binNames binsConfig = Return m
    /\ forall k, m !! k = if decide (k ∈ binNames)
                          then resolved this (get_prop raw k)
                          else binsConfig !! k.
Proof.
  revert binsConfig. induction binNames as [|k0 rest IH]; intros binsConfig Hstr.
  - exists binsConfig. split; [reflexivity|]. intros k.
    by rewrite decide_False by apply not_elem_of_nil.
  - destruct (Hstr k0) as [s0 Hs0]; [apply elem_of_cons; by left|].
    destruct (IH (<[k0 := resolve (Project.path this) s0]> binsConfig))
      as (m & Hm & Hlook).
    { intros k Hk. apply Hstr. apply elem_of_cons. by right. }
    exists m. split.
    + cbn [Project.collect_bins]. rewrite Hs0. exact Hm.
    + intros k. rewrite Hlook.
      destruct (decide (k ∈ rest)) as [Hin|Hnin].
      * rewrite decide_True; [done|]. apply elem_of_cons. by right.
      * destruct (decide (k = k0)) as [->|Hne].
        -- rewrite decide_True by (apply elem_of_cons; by left).
           rewrite lookup_insert_eq, Hs0. reflexivity.
        -- rewrite decide_False by (by intros [?|?]%elem_of_cons).
           by rewrite lookup_insert_ne.
Qed.

Lemma get_prop_own_entry (raw : Json) (k : string) :
  k ∈ Object_keys raw -> exists x, get_prop raw k = Some x /\ (k, x) ∈ own_entries raw.
Proof.
  unfold Object_keys, get_prop. intros Hk.
  destruct (assoc k (own_entries raw)) as [x|] eqn:Hx.
  - exists x. split; [done|]. by apply assoc_Some_elem.
  - by apply assoc_None_keys in Hx.
Qed.

Lemma get_prop_not_key (raw : Json) (k : string) :
  k ∉ Object_keys raw -> get_prop raw k = None.
Proof. intros H. by apply assoc_None_keys. Qed.

(** C5, as the code has it: a falsy or missing [bin] gives the empty
    mapping; a non-empty string gives one entry under the project's name;
    a value of type object, an array included, whose properties are all
    strings gives one entry per key, each resolved against the project
    directory; every other value throws the [CliError] that carries the
    inspected value and the manifest location. *)
Theorem C5_getExecutables_by_shape (this : Project.t) :
  let raw := IPackageJson.bin (Project.json this) in
  (truthy raw = false -> getExecutables this = Return ∅)
  /\ (forall s, raw = Some (JString s) -> s <> "" ->
        getExecutables this
        = Return {[ Project.name this := resolve (Project.path this) s ]})
  /\ (forall v, raw = Some v -> truthy raw = true -> typeof v = TObject ->
        (forall k x, (k, x) ∈ own_entries v -> exists s, x = JString s) ->
        exists m, getExecutables this = Return m
                  /\ forall k, m !! k = resolved this (get_prop v k))
  /\ (forall v, raw = Some v -> truthy raw = true -> typeof v = TOther ->
        getExecutables this
        = Throw (CliError
            ("[" +:+ Project.name this +:+ "] has an invalid " +:+ quote
               +:+ "bin" +:+ quote +:+ " field in its package.json, "
               +:+ "expected an object or a string")
            [ ("binConfig", inspect v);
              ("package",
               Project.name this +:+ " ("
                 +:+ Project.packageJsonLocation this +:+ ")") ])).
Proof.
  cbv zeta. unfold Project.getExecutables.
  split; [|split; [|split]].
  - destruct (IPackageJson.bin (Project.json this)) as [raw|]; [|done].
    by intros ->.
  - intros s -> Hs. cbn. by rewrite bool_decide_false.
  - intros v -> Htruthy Htype Hstr. rewrite Htruthy, Htype. cbn [negb].
    destruct (collect_bins_strings this v (Object_keys v) ∅) as (m & Hm & Hlook).
    { intros k Hk. destruct (get_prop_own_entry v k Hk) as (x & Hx & Hin).
      destruct (Hstr k x Hin) as [s ->]. by exists s. }
    exists m. split; [exact Hm|]. intros k. rewrite Hlook.
    destruct (decide (k ∈ Object_keys v)) as [Hin|Hnin]; [done|].
    by rewrite lookup_empty, get_prop_not_key.
  - intros v -> Htruthy Htype. by rewrite Htruthy, Htype.
Qed.

End Executables.

(* ================================================================== *)
(** * Pruning the links of workspace members *)

Section Reconciler.

Variable resolve : string -> string -> string.
Variable yarn_workspaces :
  string -> gmap string string -> completion workspaces_info.

Abbreviation removeExtraneousNodeModules :=
  (Project.removeExtraneousNodeModules resolve yarn_workspaces).

Abbreviation link := (link resolve).
Abbreviation prune := (prune resolve).

(** C9: on a project that is not the workspace root the pruning returns
    at once: the driver is not asked for the workspace members and no
    file-system entry is removed. *)
Theorem C9_not_root_is_noop (this : Project.t) (w : world) :
  Project.isWorkspaceRoot this = false ->
  removeExtraneousNodeModules this w = (Return tt, w).
Proof.
  intros H. unfold Project.removeExtraneousNodeModules. by rewrite H.
Qed.

Lemma undeclared_test (this : Project.t) (n : string) :
  negb match IPackageJson.dependencies (Project.json this) with
       | Some dependencies => bool_decide (is_Some (dependencies !! n))
       | None => false
       end
  && negb match IPackageJson.devDependencies (Project.json this) with
          | Some devDependencies =>
              bool_decide (is_Some (devDependencies !! n))
          | None => false
          end
  = bool_decide (~ root_declares this n).
Proof.
  destruct (decide (root_declares this n)) as [Hd|Hd];
    [rewrite (bool_decide_false (~ _)) by tauto
    |rewrite (bool_decide_true (~ _)) by done];
    unfold root_declares, declares in Hd;
    destruct (IPackageJson.dependencies (Project.json this)) as [deps|],
             (IPackageJson.devDependencies (Project.json this)) as [devs|];
    cbn [mbind option_bind] in Hd;
    repeat case_bool_decide; cbn [negb andb]; try reflexivity;
    exfalso;
    repeat match goal with
           | H : _ \/ _ |- _ => destruct H
           | H : is_Some None |- _ => by apply is_Some_None in H
           end;
    tauto.
Qed.

Lemma remove_link_run (this : Project.t) (n : string) (w : world) :
  Project.remove_link_if_extraneous resolve this n w
  = (Return tt,
     World (if decide (root_declares this n) then files w
            else delete (link this n) (files w))
           (calls w)).
Proof.
  unfold Project.remove_link_if_extraneous. rewrite undeclared_test.
  destruct w as [fs cs]; cbn [files calls].
  destruct (decide (root_declares this n)) as [Hd|Hd].
  - rewrite bool_decide_false by tauto. reflexivity.
  - rewrite bool_decide_true by done.
    unfold bind, existsSync, unlinkSync, ret, link; cbn [files calls].
    case_bool_decide as Hex; [reflexivity|].
    rewrite delete_id; [reflexivity|]. by apply eq_None_not_Some.
Qed.

Lemma forEach_remove_run (this : Project.t) (names : list string) (w : world) :
  Project.forEach (Project.remove_link_if_extraneous resolve this) names w
  = (Return tt, World (prune this (files w) names) (calls w)).
Proof.
  revert w. induction names as [|n names IH]; intros w.
  - by destruct w.
  - cbn [Project.forEach]. unfold bind at 1. rewrite remove_link_run.
    rewrite IH. reflexivity.
Qed.

Lemma prune_cons (this : Project.t) (fs : gmap string string)
    (n : string) (names : list string) :
  prune this fs (n :: names)
  = prune this (if decide (root_declares this n) then fs
                else delete (link this n) fs) names.
Proof. reflexivity. Qed.

(** Entries that are no link of a name pruned stay as they are. *)
Lemma prune_lookup_kept (this : Project.t) (names : list string)
    (fs : gmap string string) (p : string) :
  (forall n, n ∈ names -> ~ root_declares this n -> link this n <> p) ->
  prune this fs names !! p = fs !! p.
Proof.
  revert fs. induction names as [|n names IH]; intros fs Hkeep; [done|].
  rewrite prune_cons, IH.
  - case_decide as Hd; [done|]. apply lookup_delete_ne.
    apply Hkeep; [apply elem_of_cons; by left|done].
  - intros n' Hn'. apply Hkeep. apply elem_of_cons. by right.
Qed.

Lemma prune_lookup_None (this : Project.t) (names : list string)
    (fs : gmap string string) (p : string) :
  fs !! p = None -> prune this fs names !! p = None.
Proof.
  revert fs. induction names as [|n names IH]; intros fs Hnone; [done|].
  rewrite prune_cons. apply IH. case_decide; [done|].
  rewrite lookup_delete. case_decide; done.
Qed.

(** The link of a name pruned is gone. *)
Lemma prune_lookup_removed (this : Project.t) (names : list string)
    (fs : gmap string string) (n : string) :
  n ∈ names -> ~ root_declares this n ->
  prune this fs names !! link this n = None.
Proof.
  revert fs. induction names as [|n' names IH]; intros fs Hin Hundecl.
  - by apply elem_of_nil in Hin.
  - rewrite prune_cons. apply elem_of_cons in Hin as [<-|Hin].
    + rewrite decide_False by done. apply prune_lookup_None.
      apply lookup_delete_eq.
    + by apply IH.
Qed.

(** Membership in the set of unused workspaces. *)
Lemma elem_of_Set_new (keys : list string) (n : string) :
  n ∈ Set_new keys <-> n ∈ keys.
Proof.
  induction keys as [|k keys IH]; [done|].
  cbn [Set_new]. rewrite !elem_of_cons, list_elem_of_filter, IH.
  destruct (decide (n = k)); tauto.
Qed.

Lemma elem_of_delete_all (ws : list string) (unused : list string) (n : string) :
  n ∈ foldl (fun unused' w => Set_delete w unused') unused ws
  <-> n ∈ unused /\ n ∉ ws.
Proof.
  revert unused. induction ws as [|w ws IH]; intros unused.
  - cbn. split; [intros ?; split; [done|apply not_elem_of_nil]|by intros [? _]].
  - cbn [foldl]. rewrite IH. unfold Set_delete.
    rewrite list_elem_of_filter, not_elem_of_cons. tauto.
Qed.

Lemma elem_of_drop_used_go (workspacesInfo : workspaces_info)
    (names unused : list string) (n : string) :
  n ∈ foldl (fun unused' name =>
               foldl (fun unused'' w => Set_delete w unused'') unused'
                     (default [] (assoc name workspacesInfo)))
            unused names
  <-> n ∈ unused
      /\ forall name, name ∈ names ->
                      n ∉ default [] (assoc name workspacesInfo).
Proof.
  revert unused. induction names as [|name names IH]; intros unused.
  - cbn. split; [intros ?; split; [done|]|by intros [? _]].
    by intros ? ?%elem_of_nil.
  - cbn [foldl]. rewrite IH, elem_of_delete_all. split.
    + intros [[Hu Hn] Hrest]. split; [done|].
      intros name' [->|Hin]%elem_of_cons; [done|by apply Hrest].
    + intros [Hu Hall]. split; [split; [done|]|].
      * apply Hall. apply elem_of_cons. by left.
      * intros name' Hin. apply Hall. apply elem_of_cons. by right.
Qed.

(** A member stays in the set exactly when no member lists it among its
    workspace dependencies. *)
Lemma elem_of_drop_used (workspacesInfo : workspaces_info) (n : string) :
  n ∈ Project.drop_used workspacesInfo (Set_new workspacesInfo.*1)
  <-> n ∈ workspacesInfo.*1
      /\ forall name, name ∈ workspacesInfo.*1 ->
                      n ∉ default [] (assoc name workspacesInfo).
Proof.
  unfold Project.drop_used. by rewrite elem_of_drop_used_go, elem_of_Set_new.
Qed.

(** The pruning of the workspace root, when yarn answers. *)
Lemma removeExtraneousNodeModules_root (this : Project.t) (w : world)
    (workspacesInfo : workspaces_info) :
  Project.isWorkspaceRoot this = true ->
  yarn_workspaces (Project.path this) (files w) = Return workspacesInfo ->
  removeExtraneousNodeModules this w
  = (Return tt,
     World (prune this (files w)
              (Project.drop_used workspacesInfo (Set_new workspacesInfo.*1)))
           (calls w ++ [YarnWorkspacesInfo (Project.path this)])).
Proof.
  intros Hroot Hinfo. unfold Project.removeExtraneousNodeModules.
  rewrite Hroot. cbn [negb].
  unfold bind at 1, Project.yarnWorkspacesInfo, bind, record_call.
  cbn [files calls]. rewrite Hinfo.
  by rewrite forEach_remove_run.
Qed.

Lemma unused_abc (info : workspaces_info) (a b c n : string) :
  a <> b -> a <> c -> b <> c ->
  info ≡ₚ [(a, [b]); (b, []); (c, [])] ->
  n ∈ Project.drop_used info (Set_new info.*1) <-> n = a \/ n = c.
Proof.
  intros Hab Hac Hbc Hperm.
  assert (NoDup [(a, [b]); (b, []); (c, [])].*1) as Hnd.
  { cbn. repeat constructor; rewrite ?elem_of_cons, ?elem_of_nil;
      intuition congruence. }
  assert (forall name, assoc name info = assoc name [(a, [b]); (b, []); (c, [])])
    as Hassoc.
  { intros name. symmetry. by apply assoc_Permutation. }
  rewrite elem_of_drop_used, Hperm. cbn [fmap list_fmap fst].
  split.
  - intros [Hn Hfree].
    apply elem_of_cons in Hn as [->|Hn]; [by left|].
    apply elem_of_cons in Hn as [->|Hn].
    + exfalso. apply (Hfree a); [rewrite Hperm; apply elem_of_cons; by left|].
      rewrite Hassoc. cbn. rewrite bool_decide_true by done. cbn.
      apply elem_of_cons. by left.
    + apply elem_of_cons in Hn as [->|Hn]; [by right|].
      by apply elem_of_nil in Hn.
  - intros Hn. split.
    + rewrite !elem_of_cons. tauto.
    + intros name _. rewrite Hassoc. cbn.
      repeat (case_bool_decide; cbn);
        rewrite ?elem_of_cons, ?elem_of_nil; intuition congruence.
Qed.

(** C2, as the code has it: with members a, b and c of which only a
    lists b, and a root that declares neither b nor c, the pruning
    removes the link of c and keeps the link of b.  The link of a goes
    as well unless the root declares a, since no member depends on a
    either.  Every other entry is kept. *)
Theorem C2_links_pruned (root : Project.t) (w : world)
    (info : workspaces_info) (a b c : string) :
  Project.isWorkspaceRoot root = true ->
  a <> b -> a <> c -> b <> c ->
  info ≡ₚ [(a, [b]); (b, []); (c, [])] ->
  yarn_workspaces (Project.path root) (files w) = Return info ->
  ~ root_declares root b -> ~ root_declares root c ->
  link root b <> link root a -> link root b <> link root c ->
  exists fs',
    removeExtraneousNodeModules root w
    = (Return tt,
       World fs' (calls w ++ [YarnWorkspacesInfo (Project.path root)]))
    /\ fs' !! link root c = None
    /\ fs' !! link root b = files w !! link root b
    /\ (~ root_declares root a -> fs' !! link root a = None)
    /\ (forall p, p <> link root c ->
                  root_declares root a \/ p <> link root a ->
                  fs' !! p = files w !! p).
Proof.
  intros Hroot Hab Hac Hbc Hperm Hinfo Hb Hc Hba Hbc'.
  pose proof (fun n => unused_abc info a b c n Hab Hac Hbc Hperm) as Hunused.
  eexists. split; [by apply removeExtraneousNodeModules_root|].
  split; [|split; [|split]].
  - apply prune_lookup_removed; [|done]. apply Hunused. by right.
  - apply prune_lookup_kept.
    intros n [->| ->]%Hunused _; done.
  - intros Ha. apply prune_lookup_removed; [|done]. apply Hunused. by left.
  - intros p Hpc Hpa. apply prune_lookup_kept.
    intros n [->| ->]%Hunused Hundecl; [|done].
    destruct Hpa as [Hdecl|Hne]; [done|]. congruence.
Qed.

End Reconciler.

(* ================================================================== *)
(** * Installing one version of a dependency *)

Section Install.

Variable resolve : string -> string -> string.
Variable yarn_install :
  string -> option (list string) -> option bool ->
  gmap string string -> completion (gmap string string).
Variable yarn_workspaces :
  string -> gmap string string -> completion workspaces_info.

Abbreviation installDependencyVersion :=
  (Project.installDependencyVersion resolve yarn_install yarn_workspaces).
Abbreviation removeExtraneousNodeModules :=
  (Project.removeExtraneousNodeModules resolve yarn_workspaces).

Lemma patchFile_run (file search replacement text : string) (w : world) :
  files w !! file = Some text ->
  patchFile file search replacement w
  = (Return tt,
     World (<[file := replace_all search replacement text]> (files w))
           (calls w ++ [PatchFile file search replacement])).
Proof.
  intros H. unfold patchFile, bind, record_call, on_files.
  cbn [files calls]. by rewrite H.
Qed.

Lemma installInDir_run (dir : string) (extraArgs : option (list string))
    (useAdd : option bool) (w : world) (fs : gmap string string) :
  yarn_install dir extraArgs useAdd (files w) = Return fs ->
  Project.installInDir yarn_install dir extraArgs useAdd w
  = (Return tt, World fs (calls w ++ [InstallInDir dir extraArgs useAdd])).
Proof.
  intros H. unfold Project.installInDir, bind, record_call, on_files.
  cbn [files calls]. by rewrite H.
Qed.

(** The arguments of the install step. *)
Lemma installDependencyVersion_run (this : Project.t)
    (depName version : string) (dev : bool) (range : option string)
    (w : world) (fs : gmap string string) (manifest lock : string) :
  let extraArgs :=
    if Project.isWorkspaceProject this then None
    else Some ([depName +:+ "@" +:+ version]
                 ++ (if dev then ["--dev"] else [])) in
  let useAdd := if Project.isWorkspaceProject this then None else Some true in
  let rangeToUse := Project.rangeToUse version range in
  let lockLocation := resolve (Project.path this) "yarn.lock" in
  yarn_install (Project.path this) extraArgs useAdd (files w) = Return fs ->
  fs !! Project.packageJsonLocation this = Some manifest ->
  fs !! lockLocation = Some lock ->
  Project.packageJsonLocation this <> lockLocation ->
  installDependencyVersion this depName version dev range w
  = removeExtraneousNodeModules this
      (World
         (<[lockLocation :=
              replace_all (depName +:+ "@" +:+ version)
                (depName +:+ "@" +:+ rangeToUse) lock]>
            (<[Project.packageJsonLocation this :=
                 replace_all (Project.manifest_fragment depName version)
                   (Project.manifest_fragment depName rangeToUse) manifest]>
               fs))
         (calls w
            ++ [ InstallInDir (Project.path this) extraArgs useAdd;
                 PatchFile (Project.packageJsonLocation this)
                   (Project.manifest_fragment depName version)
                   (Project.manifest_fragment depName rangeToUse);
                 PatchFile lockLocation (depName +:+ "@" +:+ version)
                   (depName +:+ "@" +:+ rangeToUse) ])).
Proof.
  cbv zeta. intros Hinstall Hmanifest Hlock Hne.
  unfold Project.installDependencyVersion.
  unfold bind at 1.
  assert ((if Project.isWorkspaceProject this
           then Project.installInDir yarn_install (Project.path this) None None
           else Project.installInDir yarn_install (Project.path this)
                  (Some ([depName +:+ "@" +:+ version]
                           ++ (if dev then ["--dev"] else [])))
                  (Some true)) w
          = (Return tt,
             World fs
               (calls w
                  ++ [InstallInDir (Project.path this)
                        (if Project.isWorkspaceProject this then None
                         else Some ([depName +:+ "@" +:+ version]
                                      ++ (if dev then ["--dev"] else [])))
                        (if Project.isWorkspaceProject this then None
                         else Some true)]))) as ->.
  { destruct (Project.isWorkspaceProject this); by apply installInDir_run. }
  unfold bind at 1.
  rewrite (patchFile_run _ _ _ manifest) by done. cbn [files calls].
  unfold bind at 1.
  rewrite (patchFile_run _ _ _ lock)
    by (cbn [files]; by rewrite lookup_insert_ne).
  cbn [files calls]. by rewrite <-!app_assoc.
Qed.

(** C8: for a workspace member the install step is the bare
    [installInDir(this.path)], with no [name@version] argument, and the
    manifest and the lock file are patched after it all the same. *)
Theorem C8_member_installs_bare (this : Project.t)
    (depName version : string) (dev : bool) (range : option string)
    (w : world) (fs : gmap string string) (manifest lock : string) :
  let rangeToUse := Project.rangeToUse version range in
  let lockLocation := resolve (Project.path this) "yarn.lock" in
  Project.isWorkspaceProject this = true ->
  yarn_install (Project.path this) None None (files w) = Return fs ->
  fs !! Project.packageJsonLocation this = Some manifest ->
  fs !! lockLocation = Some lock ->
  Project.packageJsonLocation this <> lockLocation ->
  installDependencyVersion this depName version dev range w
  = removeExtraneousNodeModules this
      (World
         (<[lockLocation :=
              replace_all (depName +:+ "@" +:+ version)
                (depName +:+ "@" +:+ rangeToUse) lock]>
            (<[Project.packageJsonLocation this :=
                 replace_all (Project.manifest_fragment depName version)
                   (Project.manifest_fragment depName rangeToUse) manifest]>
               fs))
         (calls w
            ++ [ InstallInDir (Project.path this) None None;
                 PatchFile (Project.packageJsonLocation this)
                   (Project.manifest_fragment depName version)
                   (Project.manifest_fragment depName rangeToUse);
                 PatchFile lockLocation (depName +:+ "@" +:+ version)
                   (depName +:+ "@" +:+ rangeToUse) ])).
Proof.
  cbv zeta. intros Hmember Hinstall Hmanifest Hlock Hne.
  pose proof (installDependencyVersion_run this depName version dev range
                w fs manifest lock) as Hrun.
  cbv zeta in Hrun. rewrite Hmember in Hrun. by apply Hrun.
Qed.

(** C3, as the code has it: for a project that is no workspace member
    the install passes [name@version] to yarn; afterwards every
    occurrence of [name@version] in the lock file becomes [name@range],
    and every occurrence of the manifest entry ["name": "version"]
    becomes ["name": "range"]; nothing else in either text changes.  The
    range is the caret-prefixed version when none is given. *)
Theorem C3_patches_after_install (this : Project.t)
    (depName version : string) (dev : bool) (range : option string)
    (w : world) (fs : gmap string string) (manifest lock : string) :
  let extraArgs :=
    [depName +:+ "@" +:+ version] ++ (if dev then ["--dev"] else []) in
  let rangeToUse :=
    match range with
    | Some r => if bool_decide (r = "") then "^" +:+ version else r
    | None => "^" +:+ version
    end in
  let lockLocation := resolve (Project.path this) "yarn.lock" in
  Project.isWorkspaceProject this = false ->
  yarn_install (Project.path this) (Some extraArgs) (Some true) (files w)
  = Return fs ->
  fs !! Project.packageJsonLocation this = Some manifest ->
  fs !! lockLocation = Some lock ->
  Project.packageJsonLocation this <> lockLocation ->
  exists manifest' lock',
    patched (entry_text depName version) (entry_text depName rangeToUse)
      manifest manifest'
    /\ patched (depName +:+ "@" +:+ version)
         (depName +:+ "@" +:+ rangeToUse) lock lock'
    /\ installDependencyVersion this depName version dev range w
       = removeExtraneousNodeModules this
           (World
              (<[lockLocation := lock']>
                 (<[Project.packageJsonLocation this := manifest']> fs))
              (calls w
                 ++ [ InstallInDir (Project.path this) (Some extraArgs)
                        (Some true);
                      PatchFile (Project.packageJsonLocation this)
                        (entry_text depName version)
                        (entry_text depName rangeToUse);
                      PatchFile lockLocation
                        (depName +:+ "@" +:+ version)
                        (depName +:+ "@" +:+ rangeToUse) ])).
Proof.
  cbv zeta. intros Hmember Hinstall Hmanifest Hlock Hne.
  eexists _, _. split; [|split].
  - by apply replace_all_patched.
  - apply replace_all_patched, at_version_nonempty.
  - pose proof (installDependencyVersion_run this depName version dev range
                  w fs manifest lock) as Hrun.
    cbv zeta in Hrun. rewrite Hmember in Hrun.
    unfold Project.rangeToUse in Hrun. rewrite !entry_text_fragment in Hrun.
    by apply Hrun.
Qed.

End Install.

(* ================================================================== *)
(** * The sample workspace, evaluated *)

Ltac differ := vm_compute; let H := fresh in intros H; discriminate H.

(** The link declaration of the sample application is the expected one. *)
Example app_links_lib :
  Project.ensureValidProjectDependency Posix.relative isLinkDependency_strict
    Sample.app Sample.lib false = Return tt.
Proof. vm_compute. reflexivity. Qed.

Example lib_executable :
  Project.getExecutables Posix.resolve inspect_plain Sample.lib
  = Return {[ "lib" := "/ws/libs/lib/bin/cli.js" ]}.
Proof. vm_compute. reflexivity. Qed.

Lemma C6_production_wins_witness :
  Project.allDependencies Sample.app !! "lodash" = Some "^4.17.21"
  /\ Project.allDependencies Sample.app !! "lib" = Some "link:../libs/lib"
  /\ Project.allDependencies Sample.app !! "mocha" = Some "^8.0.0".
Proof.
  split; [|split].
  - refine (proj1 (C6_production_wins Posix.resolve BuildTargets_spec
                     Sample.app_json "/ws/app" "lodash")
              "^4.17.21" "^3.0.0" _ _); vm_compute; reflexivity.
  - refine (proj1 (proj2 (C6_production_wins Posix.resolve BuildTargets_spec
                            Sample.app_json "/ws/app" "lib"))
              "link:../libs/lib" _ _); vm_compute; reflexivity.
  - refine (proj2 (proj2 (C6_production_wins Posix.resolve BuildTargets_spec
                            Sample.app_json "/ws/app" "mocha"))
              "^8.0.0" _ _); vm_compute; reflexivity.
Defined.

Lemma C7_buildTargets_witness :
  ("web" ∈ Project.buildTargets Sample.lib
   /\ "node" ∈ Project.buildTargets Sample.lib)
  /\ Project.buildTargets (Sample.new Sample.lib_json_reordered "/ws/libs/lib")
     = Project.buildTargets Sample.lib.
Proof.
  assert (NoDup [("node", JBool true); ("web", JBool true)].*1) as Hnd.
  { cbn. repeat constructor; rewrite ?elem_of_cons, ?elem_of_nil;
      intuition discriminate. }
  split; [split|].
  - refine (proj2 (proj1 (proj2 (C7_buildTargets Posix.resolve
                                   BuildTargets_spec Sample.lib_json
                                   "/ws/libs/lib"))
                     [("node", JBool true); ("web", JBool true)] "web" _ Hnd)
              _); [reflexivity|].
    split; [apply elem_of_cons; by left|].
    exists (JBool true). split; [|reflexivity].
    apply elem_of_cons. right. apply elem_of_cons. by left.
  - refine (proj2 (proj1 (proj2 (C7_buildTargets Posix.resolve
                                   BuildTargets_spec Sample.lib_json
                                   "/ws/libs/lib"))
                     [("node", JBool true); ("web", JBool true)] "node" _ Hnd)
              _); [reflexivity|].
    split; [apply elem_of_cons; right; apply elem_of_cons; by left|].
    exists (JBool true). split; [|reflexivity].
    apply elem_of_cons. by left.
  - refine (proj2 (proj2 (proj2 (C7_buildTargets Posix.resolve
                                   BuildTargets_spec Sample.lib_json
                                   "/ws/libs/lib")))
              Sample.lib_json_reordered
              [("node", JBool true); ("web", JBool true)]
              [("web", JBool true); ("node", JBool true)] _ _ Hnd _).
    + reflexivity.
    + reflexivity.
    + apply perm_swap.
Defined.

Lemma C4_mismatch_classified_witness :
  Project.ensureValidProjectDependency Posix.relative isLinkDependency_strict
    Sample.app_registry Sample.lib false
  = Throw (CliError
      ("[app] depends on [lib] but it's not using the local package."
         +:+ " Update its package.json to the expected value below.")
      [ ("actual", entry_text "lib" "^1.0.0");
        ("expected", entry_text "lib" "link:../libs/lib");
        ("package", "app (/ws/app/package.json)") ]).
Proof.
  refine (proj1 (C4_mismatch_classified Posix.relative isLinkDependency_strict
                   Sample.app_registry Sample.lib false false _ _)).
  - differ.
  - reflexivity.
Defined.

(** The library has no version and the application, a workspace member,
    does not declare it: both sides of the comparison are [undefined] and
    the check returns, whatever the helper would have said. *)
Lemma C10_versionless_counterexample :
  IPackageJson.version (Project.json Cases.lib_versionless) = None
  /\ Project.allDependencies Sample.app_undeclared !! "lib" = None
  /\ Project.ensureValidProjectDependency Posix.relative
       isLinkDependency_lenient Sample.app_undeclared Cases.lib_versionless
       true
     = Return tt.
Proof. repeat split; vm_compute; reflexivity. Qed.

Lemma C10_undeclared_dependency_witness :
  Project.ensureValidProjectDependency Posix.relative isLinkDependency_lenient
    Sample.app_undeclared Sample.lib true
  = Throw (CliError
      ("[app] depends on [lib] but it's not using the local package."
         +:+ " Update its package.json to the expected value below.")
      [ ("actual", entry_text "lib" "undefined");
        ("expected", entry_text "lib" "2.3.0");
        ("package", "app (/ws/app/package.json)") ])
  /\ Project.ensureValidProjectDependency Posix.relative
       isLinkDependency_strict Sample.app_undeclared Sample.lib true
     = Throw (ForeignError "TypeError")
  /\ Project.ensureValidProjectDependency Posix.relative
       isLinkDependency_lenient Sample.app_undeclared Cases.lib_versionless
       true
     = Return tt.
Proof.
  split; [|split].
  - refine (proj2 (proj2 (C10_undeclared_dependency Posix.resolve
                            Posix.relative isLinkDependency_lenient
                            BuildTargets_spec Sample.app_undeclared_json
                            "/ws/app" Sample.lib true _ _) _));
      [reflexivity|reflexivity|discriminate].
  - refine (proj2 (proj2 (C10_undeclared_dependency Posix.resolve
                            Posix.relative isLinkDependency_strict
                            BuildTargets_spec Sample.app_undeclared_json
                            "/ws/app" Sample.lib true _ _) _));
      [reflexivity|reflexivity|discriminate].
  - refine (proj1 (C10_undeclared_dependency Posix.resolve
                     Posix.relative isLinkDependency_lenient
                     BuildTargets_spec Sample.app_undeclared_json
                     "/ws/app" Cases.lib_versionless true _ _) _);
      reflexivity.
Defined.

(** An array is neither a string nor a mapping, yet [typeof] calls it an
    object: its indices become the names of the executables and nothing
    is thrown. *)
Lemma C5_array_bin_counterexample :
  IPackageJson.bin (Project.json Sample.foo_array)
  = Some (JArray [JString "./cli.js"])
  /\ Project.getExecutables Posix.resolve inspect_plain Sample.foo_array
     = Return {[ "0" := "/ws/foo/cli.js" ]}.
Proof. split; [reflexivity|]. vm_compute. reflexivity. Qed.

Lemma C5_getExecutables_by_shape_witness :
  Project.getExecutables Posix.resolve inspect_plain Sample.lib
  = Return {[ "lib" := Posix.resolve "/ws/libs/lib" "./bin/cli.js" ]}
  /\ (exists m,
         Project.getExecutables Posix.resolve inspect_plain Sample.foo_object
         = Return m
         /\ forall k,
             m !! k
             = resolved Posix.resolve Sample.foo_object
                 (get_prop (JObject [("foo", JString "./bin/foo.js");
                                     ("bar", JString "bin/bar.js")]) k))
  /\ Project.getExecutables Posix.resolve inspect_plain Sample.foo_number
     = Throw (CliError
         ("[foo] has an invalid " +:+ quote +:+ "bin" +:+ quote
            +:+ " field in its package.json, expected an object or a string")
         [ ("binConfig", "42"); ("package", "foo (/ws/foo/package.json)") ]).
Proof.
  split; [|split].
  - refine (proj1 (proj2 (C5_getExecutables_by_shape Posix.resolve
                            inspect_plain Sample.lib))
              "./bin/cli.js" _ _); [reflexivity|discriminate].
  - refine (proj1 (proj2 (proj2 (C5_getExecutables_by_shape Posix.resolve
                                   inspect_plain Sample.foo_object)))
              _ _ _ _ _); [reflexivity..|].
    intros k x H. cbn in H.
    repeat (apply elem_of_cons in H as [H|H]; [injection H as -> ->; eauto|]).
    by apply elem_of_nil in H.
  - refine (proj2 (proj2 (proj2 (C5_getExecutables_by_shape Posix.resolve
                                   inspect_plain Sample.foo_number)))
              (JNumber 42) _ _ _); reflexivity.
Defined.

Lemma C9_not_root_is_noop_witness :
  Project.removeExtraneousNodeModules Posix.resolve yarn_workspaces_abc
    Sample.lib Sample.world_links
  = (Return tt, Sample.world_links).
Proof.
  refine (C9_not_root_is_noop Posix.resolve yarn_workspaces_abc
            Sample.lib Sample.world_links _).
  reflexivity.
Defined.

(** No member depends on a and the root does not declare it: its link is
    removed along with the link of c. *)
Lemma C2_link_of_a_counterexample :
  files Sample.world_links !! "/ws/node_modules/a" = Some "../packages/a"
  /\ Project.removeExtraneousNodeModules Posix.resolve yarn_workspaces_abc
       Sample.root Sample.world_links
     = (Return tt,
        World {[ "/ws/node_modules/b" := "../packages/b" ]}
              [YarnWorkspacesInfo "/ws"]).
Proof. split; vm_compute; reflexivity. Qed.

Lemma C2_links_pruned_witness :
  exists fs',
    Project.removeExtraneousNodeModules Posix.resolve yarn_workspaces_abc
      Sample.root Sample.world_links
    = (Return tt, World fs' [YarnWorkspacesInfo "/ws"])
    /\ fs' !! link Posix.resolve Sample.root "c" = None
    /\ fs' !! link Posix.resolve Sample.root "b"
       = files Sample.world_links !! link Posix.resolve Sample.root "b"
    /\ (~ root_declares Sample.root "a" ->
        fs' !! link Posix.resolve Sample.root "a" = None)
    /\ (forall p, p <> link Posix.resolve Sample.root "c" ->
                  root_declares Sample.root "a"
                  \/ p <> link Posix.resolve Sample.root "a" ->
                  fs' !! p = files Sample.world_links !! p).
Proof.
  refine (C2_links_pruned Posix.resolve yarn_workspaces_abc Sample.root
            Sample.world_links info_abc "a" "b" "c" _ _ _ _ _ _ _ _ _ _).
  - reflexivity.
  - discriminate.
  - discriminate.
  - discriminate.
  - reflexivity.
  - reflexivity.
  - intros [[v H]|[v H]]; discriminate H.
  - intros [[v H]|[v H]]; discriminate H.
  - differ.
  - differ.
Defined.

(** The manifest mentions [lodash@4.17.21] in a script, and that mention
    is still there after the install; what changes in the manifest is the
    entry ["lodash": "4.17.21"]. *)
Lemma C3_manifest_counterexample :
  files Sample.world_installed !! "/ws/app/package.json"
  = Some ("{ " +:+ entry_text "lodash" "4.17.21" +:+ ", "
            +:+ entry_text "pin" "yarn add lodash@4.17.21" +:+ " }")
  /\ Project.installDependencyVersion Posix.resolve yarn_idle
       yarn_workspaces_abc Sample.app "lodash" "4.17.21" false None
       Sample.world_installed
     = (Return tt,
        World
          {[ "/ws/app/package.json" :=
               "{ " +:+ entry_text "lodash" "^4.17.21" +:+ ", "
                 +:+ entry_text "pin" "yarn add lodash@4.17.21" +:+ " }";
             "/ws/app/yarn.lock" := "lodash@^4.17.21: resolved" ]}
          [ InstallInDir "/ws/app" (Some ["lodash@4.17.21"]) (Some true);
            PatchFile "/ws/app/package.json"
              (entry_text "lodash" "4.17.21") (entry_text "lodash" "^4.17.21");
            PatchFile "/ws/app/yarn.lock" "lodash@4.17.21" "lodash@^4.17.21" ]).
Proof. split; vm_compute; reflexivity. Qed.

Lemma C3_patches_after_install_witness :
  exists manifest' lock',
    patched (entry_text "lodash" "4.17.21") (entry_text "lodash" "^4.17.21")
      (Sample.manifest_text "4.17.21") manifest'
    /\ patched "lodash@4.17.21" "lodash@^4.17.21"
         "lodash@4.17.21: resolved" lock'
    /\ Project.installDependencyVersion Posix.resolve yarn_idle
         yarn_workspaces_abc Sample.app "lodash" "4.17.21" false None
         Sample.world_installed
       = Project.removeExtraneousNodeModules Posix.resolve yarn_workspaces_abc
           Sample.app
           (World
              (<["/ws/app/yarn.lock" := lock']>
                 (<["/ws/app/package.json" := manifest']>
                    (files Sample.world_installed)))
              [ InstallInDir "/ws/app" (Some ["lodash@4.17.21"]) (Some true);
                PatchFile "/ws/app/package.json"
                  (entry_text "lodash" "4.17.21")
                  (entry_text "lodash" "^4.17.21");
                PatchFile "/ws/app/yarn.lock" "lodash@4.17.21"
                  "lodash@^4.17.21" ]).
Proof.
  refine (C3_patches_after_install Posix.resolve yarn_idle
            yarn_workspaces_abc Sample.app "lodash" "4.17.21"
            false None Sample.world_installed
            (files Sample.world_installed)
            (Sample.manifest_text "4.17.21")
            "lodash@4.17.21: resolved" _ _ _ _ _).
  - reflexivity.
  - reflexivity.
  - vm_compute. reflexivity.
  - vm_compute. reflexivity.
  - differ.
Defined.

Lemma C8_member_installs_bare_witness :
  Project.installDependencyVersion Posix.resolve yarn_idle yarn_workspaces_abc
    Sample.lib_member "lodash" "4.17.21" true None Sample.world_member
  = (Return tt,
     World
       {[ "/ws/libs/lib/package.json" :=
            "{ " +:+ Project.manifest_fragment "lodash" "^4.17.21" +:+ " }";
          "/ws/libs/lib/yarn.lock" := "lodash@^4.17.21: resolved" ]}
       [ InstallInDir "/ws/libs/lib" None None;
         PatchFile "/ws/libs/lib/package.json"
           (Project.manifest_fragment "lodash" "4.17.21")
           (Project.manifest_fragment "lodash" "^4.17.21");
         PatchFile "/ws/libs/lib/yarn.lock" "lodash@4.17.21"
           "lodash@^4.17.21" ]).
Proof.
  etrans.
  - refine (C8_member_installs_bare Posix.resolve yarn_idle
              yarn_workspaces_abc Sample.lib_member "lodash" "4.17.21" true
              None Sample.world_member (files Sample.world_member)
              ("{ " +:+ Project.manifest_fragment "lodash" "4.17.21" +:+ " }")
              "lodash@4.17.21: resolved" _ _ _ _ _).
    + reflexivity.
    + reflexivity.
    + vm_compute. reflexivity.
    + vm_compute. reflexivity.
    + differ.
  - vm_compute. reflexivity.
Defined.

(* ================================================================== *)
(** * More on path normalisation *)

Lemma is_sep_cases (c : ascii) :
  is_sep c = true -> c = "/"%char \/ c = "\"%char.
Proof.
  unfold is_sep. intros [H|H]%orb_prop; apply bool_decide_eq_true in H; auto.
Qed.

Lemma is_sep_slash : is_sep "/"%char = true.
Proof. reflexivity. Qed.

(** Inside a run the output does not begin with a slash. *)
Lemma normalizePath_in_run_head (path : string) :
  startsWith "/" (normalizePath_from true path) = false.
Proof.
  induction path as [|c path IH]; [reflexivity|].
  simpl. destruct (is_sep c) eqn:Hc; [exact IH|].
  simpl. rewrite bool_decide_false; [reflexivity|].
  intros <-. by rewrite is_sep_slash in Hc.
Qed.

Lemma normalizePath_from_single_slashes (in_run : bool) (path : string) :
  ~ has_double_slash (normalizePath_from in_run path).
Proof.
  revert in_run. induction path as [|c path IH]; intros in_run (pre & post & Heq).
  - apply (f_equal String.length) in Heq. rewrite !length_append in Heq.
    simpl in Heq. lia.
  - simpl in Heq. destruct (is_sep c) eqn:Hc.
    + destruct in_run; [by eapply IH; eexists _, _|].
      destruct pre as [|c' pre].
      * rewrite append_empty_l in Heq. injection Heq as Heq.
        pose proof (normalizePath_in_run_head path) as Hhead.
        rewrite Heq in Hhead. discriminate.
      * rewrite append_cons in Heq. injection Heq as _ Heq.
        by eapply IH; eexists _, _.
    + destruct pre as [|c' pre].
      * rewrite append_empty_l in Heq. injection Heq as -> _.
        by rewrite is_sep_slash in Hc.
      * rewrite append_cons in Heq. injection Heq as _ Heq.
        by eapply IH; eexists _, _.
Qed.

Lemma normalizePath_from_fixed (in_run : bool) (path : string) :
  (forall c, c ∈ chars path -> c <> "\"%char) ->
  ~ has_double_slash path ->
  (in_run = true -> startsWith "/" path = false) ->
  normalizePath_from in_run path = path.
Proof.
  revert in_run. induction path as [|c path IH]; intros in_run Hback Hdouble Hhead;
    [reflexivity|].
  assert (forall c', c' ∈ chars path -> c' <> "\"%char) as Hback'.
  { intros c' Hc'. apply Hback. cbn. apply elem_of_cons. by right. }
  assert (~ has_double_slash path) as Hdouble'.
  { intros (pre & post & ->). apply Hdouble. by exists (String c pre), post. }
  simpl. destruct (is_sep c) eqn:Hc.
  - apply is_sep_cases in Hc as [-> | ->];
      [|exfalso; eapply Hback; [cbn; apply elem_of_cons; by left|done]].
    destruct in_run.
    { specialize (Hhead eq_refl). cbn in Hhead. discriminate Hhead. }
    f_equal. apply IH; [done..|]. intros _.
    destruct (startsWith "/" path) eqn:Hs; [|reflexivity].
    apply startsWith_inv in Hs as [post ->].
    exfalso. apply Hdouble. by exists "", post.
  - f_equal. by apply IH.
Qed.

(** X1: normalising a path twice gives what normalising it once gives. *)
Theorem X1_normalizePath_idempotent (path : string) :
  normalizePath (normalizePath path) = normalizePath path.
Proof. unfold normalizePath. apply normalizePath_from_idem. Qed.

(** X2: a normalised path never holds two adjacent slashes, and it is
    never longer than the path it was made from. *)
Theorem X2_normalizePath_single_slashes (path : string) :
  ~ has_double_slash (normalizePath path)
  /\ (String.length (normalizePath path) <= String.length path)%nat.
Proof.
  split; [apply normalizePath_from_single_slashes|].
  unfold normalizePath. generalize false.
  induction path as [|c path IH]; intros in_run; [done|].
  simpl. destruct (is_sep c), in_run; simpl;
    repeat match goal with
           | |- context [normalizePath_from ?b path] =>
               pose proof (IH b); generalize dependent (normalizePath_from b path);
               intros
           end; lia.
Qed.

(** X3: the paths that normalisation leaves as they are are exactly those
    with no backslash and no two adjacent slashes. *)
Theorem X3_normalizePath_fixed_points (path : string) :
  normalizePath path = path
  <-> (forall c, c ∈ chars path -> c <> "\"%char) /\ ~ has_double_slash path.
Proof.
  split.
  - intros Heq. split.
    + intros c Hc. rewrite <-Heq in Hc.
      by eapply normalizePath_from_no_backslash.
    + rewrite <-Heq. apply normalizePath_from_single_slashes.
  - intros [Hback Hdouble]. by apply normalizePath_from_fixed.
Qed.

(* ================================================================== *)
(** * More on construction and validation *)

Section DerivedViews.

Variable resolve : string -> string -> string.
Variable relative : string -> string -> string.
Variable isLinkDependency : option string -> completion bool.
Variable BuildTargets : list string.

Abbreviation new := (Project.new resolve BuildTargets).
Abbreviation ensureValidProjectDependency :=
  (Project.ensureValidProjectDependency relative isLinkDependency).

Lemma allDependencies_names (packageJson : IPackageJson.t)
    (projectPath k : string) :
  is_Some (Project.allDependencies (new packageJson projectPath) !! k)
  <-> is_Some (declares (IPackageJson.dependencies packageJson) k)
      \/ is_Some (declares (IPackageJson.devDependencies packageJson) k).
Proof.
  rewrite allDependencies_new.
  destruct (declares (IPackageJson.dependencies packageJson) k) as [v|].
  - split; [by left|by eauto].
  - split; [by right|]. intros [H|H]; [|done]. by apply is_Some_None in H.
Qed.

(** X4: the names in [allDependencies] are those that [dependencies] or
    [devDependencies] declares, no more and no fewer. *)
Theorem X4_allDependencies_names (packageJson : IPackageJson.t)
    (projectPath k : string) :
  is_Some (Project.allDependencies (new packageJson projectPath) !! k)
  <-> is_Some (declares (IPackageJson.dependencies packageJson) k)
      \/ is_Some (declares (IPackageJson.devDependencies packageJson) k).
Proof. apply allDependencies_names. Qed.

(** X5: validation reads the merged dependencies, so a correct declaration
    in [devDependencies] alone is accepted, while a different declaration
    in [dependencies] is rejected whatever [devDependencies] says. *)
Theorem X5_production_shadows_in_validation (packageJson : IPackageJson.t)
    (projectPath : string) (project : Project.t) (flag : bool) :
  let this := new packageJson projectPath in
  let depName := Project.name project in
  let expected :=
    Project.expectedVersionInPackageJson relative this project flag in
  (declares (IPackageJson.dependencies packageJson) depName = None ->
   declares (IPackageJson.devDependencies packageJson) depName = expected ->
   ensureValidProjectDependency this project flag = Return tt)
  /\ (forall v,
         declares (IPackageJson.dependencies packageJson) depName = Some v ->
         Some v <> expected ->
         exists e, ensureValidProjectDependency this project flag = Throw e).
Proof.
  cbv zeta. split.
  - intros Hdeps Hdevs. apply ensureValid_match.
    rewrite allDependencies_new. by rewrite Hdeps.
  - intros v Hdeps Hne. apply ensureValid_mismatch.
    by rewrite allDependencies_new, Hdeps.
Qed.

(** X6: writing the expected declaration that the error reports into
    [dependencies] makes the validation pass. *)
Theorem X6_expected_declaration_remedies (packageJson : IPackageJson.t)
    (projectPath : string) (project : Project.t) (flag : bool)
    (expected : string) :
  Project.expectedVersionInPackageJson relative
    (new packageJson projectPath) project flag = Some expected ->
  ensureValidProjectDependency
    (new (declare_dependency (Project.name project) expected packageJson)
         projectPath)
    project flag
  = Return tt.
Proof.
  intros Hexp. apply ensureValid_match.
  rewrite allDependencies_new. unfold declare_dependency, declares.
  cbn [IPackageJson.dependencies mbind option_bind].
  rewrite lookup_insert_eq. symmetry. exact Hexp.
Qed.

Lemma hasBuildTargets_new (packageJson : IPackageJson.t) (projectPath : string) :
  Project.hasBuildTargets (new packageJson projectPath) = true
  <-> exists target,
        target ∈ BuildTargets
        /\ truthy (get_prop
                     (Project.customDefinitions (new packageJson projectPath))
                     target) = true.
Proof.
  unfold Project.hasBuildTargets. rewrite bool_decide_eq_true.
  cbn [Project.new Project.buildTargets].
  unfold Project.select_buildTargets. split.
  - intros Hlen.
    destruct (filter _ BuildTargets) as [|target rest] eqn:Hf;
      [simpl in Hlen; lia|].
    assert (target ∈ filter
              (fun target => truthy (get_prop
                 (Project.customDefinitions (new packageJson projectPath))
                 target) = true) BuildTargets) as Hin.
    { cbn [Project.new Project.customDefinitions]. rewrite Hf.
      apply elem_of_cons. by left. }
    apply list_elem_of_filter in Hin as [Htruthy Hin]. by exists target.
  - intros (target & Hin & Htruthy).
    assert (target ∈ filter
              (fun target => truthy (get_prop
                 (Project.customDefinitions (new packageJson projectPath))
                 target) = true) BuildTargets) as Hf.
    { by apply list_elem_of_filter. }
    cbn [Project.new Project.customDefinitions] in Hf.
    destruct (filter _ BuildTargets); [by apply elem_of_nil in Hf|].
    simpl. lia.
Qed.

(** X7: a constructed project has build targets exactly when some member
    of the enumeration is a truthy key of its custom definitions. *)
Theorem X7_hasBuildTargets (packageJson : IPackageJson.t) (projectPath : string) :
  let this := new packageJson projectPath in
  Project.hasBuildTargets this = true
  <-> exists target,
        target ∈ BuildTargets
        /\ truthy (get_prop (Project.customDefinitions this) target) = true.
Proof. apply hasBuildTargets_new. Qed.

(** X9: a constructed project has dependencies exactly when one of the
    two blocks declares a name. *)
Theorem X9_hasDependencies (packageJson : IPackageJson.t) (projectPath : string) :
  Project.hasDependencies (new packageJson projectPath) = true
  <-> exists k,
        is_Some (declares (IPackageJson.dependencies packageJson) k)
        \/ is_Some (declares (IPackageJson.devDependencies packageJson) k).
Proof.
  unfold Project.hasDependencies. rewrite bool_decide_eq_true. split.
  - intros Hsize.
    destruct (map_choose (Project.allDependencies (new packageJson projectPath)))
      as (k & v & Hk).
    { apply map_size_non_empty_iff. lia. }
    exists k. apply (proj1 (allDependencies_names packageJson projectPath k)).
    by rewrite Hk.
  - intros (k & Hk).
    apply (proj2 (allDependencies_names packageJson projectPath k)) in Hk
      as [v Hv].
    assert (size (Project.allDependencies (new packageJson projectPath)) <> 0%nat)
      as Hne; [|lia].
    apply map_size_non_empty_iff. intros Hempty.
    rewrite Hempty in Hv. by rewrite lookup_empty in Hv.
Qed.

(** X11: when the declaration is not the expected one and the helper
    [isLinkDependency] throws on it, that error is what the caller gets,
    and no [CliError] is built. *)
Theorem X11_helper_failure_surfaces (this project : Project.t) (flag : bool)
    (e : exn) :
  let declared := Project.allDependencies this !! Project.name project in
  declared
  <> Project.expectedVersionInPackageJson relative this project flag ->
  isLinkDependency declared = Throw e ->
  ensureValidProjectDependency this project flag = Throw e.
Proof.
  cbv zeta. intros Hne Hthrow. unfold Project.ensureValidProjectDependency.
  rewrite bool_decide_false by done.
  unfold Project.problemMsg. by rewrite Hthrow.
Qed.

End DerivedViews.

Section Builds.

Variable resolve : string -> string -> string.
Variable BuildTargets : list string.
Variable BuildResult : Type.
Variable buildTargetedPackage : Project.t -> option bool -> M BuildResult.

Abbreviation new := (Project.new resolve BuildTargets).

(** X8: a project none of whose custom definitions selects a build target
    answers [false] to [buildForTargets] without calling the builder; with
    a target selected, the answer is the builder's. *)
Theorem X8_buildForTargets_guard (packageJson : IPackageJson.t)
    (projectPath : string) (sourceMaps : option bool) (w : world) :
  let this := new packageJson projectPath in
  ((forall target,
       target ∈ BuildTargets ->
       truthy (get_prop (Project.customDefinitions this) target) = false) ->
   Project.buildForTargets BuildResult buildTargetedPackage this sourceMaps w
   = (Return (inl false), w))
  /\ ((exists target,
          target ∈ BuildTargets
          /\ truthy (get_prop (Project.customDefinitions this) target) = true) ->
      Project.buildForTargets BuildResult buildTargetedPackage this sourceMaps w
      = match buildTargetedPackage this sourceMaps w with
        | (Return built, w') => (Return (inr built), w')
        | (Throw e, w') => (Throw e, w')
        end).
Proof.
  cbv zeta. unfold Project.buildForTargets. split.
  - intros Hnone.
    destruct (Project.hasBuildTargets (new packageJson projectPath)) eqn:Hhas;
      [|reflexivity].
    apply (hasBuildTargets_new resolve BuildTargets) in Hhas
      as (target & Hin & Htruthy).
    rewrite (Hnone target Hin) in Htruthy. discriminate.
  - intros Hsome. apply (hasBuildTargets_new resolve BuildTargets) in Hsome.
    rewrite Hsome.
    cbn [negb]. unfold bind.
    by destruct (buildTargetedPackage _ _ w) as [[built|e] w'].
Qed.

End Builds.

Section MoreExecutables.

Variable resolve : string -> string -> string.
Variable inspect : Json -> string.

Lemma collect_bins_bad_member (this : Project.t) (raw : Json)
    (binNames : list string) (binsConfig : gmap string string) (k : string) :
  k ∈ binNames ->
  (forall s, get_prop raw k <> Some (JString s)) ->
  Project.collect_bins resolve this raw binNames binsConfig
  = Throw (ForeignError "ERR_INVALID_ARG_TYPE").
Proof.
  revert binsConfig. induction binNames as [|k0 rest IH]; intros binsConfig Hin Hbad.
  - by apply elem_of_nil in Hin.
  - cbn [Project.collect_bins].
    destruct (get_prop raw k0) as [[| | |s0| |]|] eqn:Hk0; try reflexivity.
    cbn [Project.resolve_value cbind].
    apply elem_of_cons in Hin as [->|Hin]; [by destruct (Hbad s0)|].
    by apply IH.
Qed.

(** X10: when [bin] is an object or an array and one of its own
    properties is not a string, [getExecutables] returns no mapping at
    all: the call ends in the argument error of [path.resolve]. *)
Theorem X10_bin_member_not_a_string (this : Project.t) (raw : Json) (k : string) :
  IPackageJson.bin (Project.json this) = Some raw ->
  truthy (Some raw) = true ->
  typeof raw = TObject ->
  k ∈ Object_keys raw ->
  (forall s, get_prop raw k <> Some (JString s)) ->
  Project.getExecutables resolve inspect this
  = Throw (ForeignError "ERR_INVALID_ARG_TYPE").
Proof.
  intros Hbin Htruthy Htype Hk Hbad. unfold Project.getExecutables.
  rewrite Hbin, Htruthy, Htype. cbn [negb].
  by eapply collect_bins_bad_member.
Qed.

End MoreExecutables.

(* ================================================================== *)
(** * More on pruning and installing *)

Section Pruning.

Variable resolve : string -> string -> string.
Variable yarn_install :
  string -> option (list string) -> option bool ->
  gmap string string -> completion (gmap string string).
Variable yarn_workspaces :
  string -> gmap string string -> completion workspaces_info.

Abbreviation removeExtraneousNodeModules :=
  (Project.removeExtraneousNodeModules resolve yarn_workspaces).
Abbreviation installDependencies :=
  (Project.installDependencies resolve yarn_install yarn_workspaces).
Abbreviation installDependencyVersion :=
  (Project.installDependencyVersion resolve yarn_install yarn_workspaces).
Abbreviation link := (link resolve).
Abbreviation prune := (prune resolve).

Lemma prune_lookup (this : Project.t) (names : list string)
    (fs : gmap string string) (p : string) :
  prune this fs names !! p
  = if decide (Exists (fun n => ~ root_declares this n /\ link this n = p) names)
    then None else fs !! p.
Proof.
  case_decide as Hex.
  - apply Exists_exists in Hex as (n & Hin & Hundecl & <-).
    by apply prune_lookup_removed.
  - apply prune_lookup_kept. intros n Hin Hundecl Hl.
    apply Hex, Exists_exists. by exists n.
Qed.

Lemma prune_subseteq (this : Project.t) (names : list string)
    (fs : gmap string string) :
  prune this fs names ⊆ fs.
Proof.
  apply map_subseteq_spec. intros p v. rewrite prune_lookup.
  by case_decide.
Qed.

Lemma prune_idempotent (this : Project.t) (names : list string)
    (fs : gmap string string) :
  prune this (prune this fs names) names = prune this fs names.
Proof.
  apply map_eq. intros p. rewrite !prune_lookup. by case_decide.
Qed.

Lemma elem_of_unused (this : Project.t) (workspacesInfo : workspaces_info)
    (n : string) :
  extraneous this workspacesInfo n
  <-> n ∈ Project.drop_used workspacesInfo (Set_new workspacesInfo.*1)
      /\ ~ root_declares this n.
Proof.
  unfold extraneous. rewrite (elem_of_drop_used resolve yarn_workspaces).
  split; [intros (? & ? & ?)|intros [[? ?] ?]]; done.
Qed.

Lemma removeExtraneousNodeModules_throw (this : Project.t) (w : world) (e : exn) :
  Project.isWorkspaceRoot this = true ->
  yarn_workspaces (Project.path this) (files w) = Throw e ->
  removeExtraneousNodeModules this w
  = (Throw e,
     World (files w) (calls w ++ [YarnWorkspacesInfo (Project.path this)])).
Proof.
  intros Hroot Hthrow. unfold Project.removeExtraneousNodeModules.
  rewrite Hroot. cbn [negb].
  unfold bind at 1, Project.yarnWorkspacesInfo, bind, record_call.
  cbn [files calls]. by rewrite Hthrow.
Qed.

Lemma removeExtraneousNodeModules_not_root (this : Project.t) (w : world) :
  Project.isWorkspaceRoot this = false ->
  removeExtraneousNodeModules this w = (Return tt, w).
Proof.
  intros Hroot. unfold Project.removeExtraneousNodeModules. by rewrite Hroot.
Qed.

(** X12: on the workspace root, when yarn answers, an entry is removed
    exactly when it is the link of a member that no member lists among
    its workspace dependencies and that the root declares in neither
    block; every other entry is kept as it was, and the one call made is
    the workspace query. *)
Theorem X12_pruning_characterised (this : Project.t) (w : world)
    (workspacesInfo : workspaces_info) :
  Project.isWorkspaceRoot this = true ->
  yarn_workspaces (Project.path this) (files w) = Return workspacesInfo ->
  exists fs',
    removeExtraneousNodeModules this w
    = (Return tt,
       World fs' (calls w ++ [YarnWorkspacesInfo (Project.path this)]))
    /\ forall p,
        ((exists n, extraneous this workspacesInfo n /\ link this n = p) ->
         fs' !! p = None)
        /\ (~ (exists n, extraneous this workspacesInfo n /\ link this n = p) ->
            fs' !! p = files w !! p).
Proof.
  intros Hroot Hinfo. eexists. split.
  { by apply (removeExtraneousNodeModules_root resolve yarn_workspaces). }
  intros p. split.
  - intros (n & [Hin Hundecl]%elem_of_unused & <-).
    by apply prune_lookup_removed.
  - intros Hnone. apply prune_lookup_kept. intros n Hin Hundecl Hl.
    apply Hnone. exists n. split; [|done]. by apply elem_of_unused.
Qed.

(** X13: whatever the project and whatever yarn answers, the pruning
    creates no entry and rewrites none: the files after it are among the
    files before it. *)
Theorem X13_pruning_only_removes (this : Project.t) (w : world) :
  files (removeExtraneousNodeModules this w).2 ⊆ files w.
Proof.
  destruct (Project.isWorkspaceRoot this) eqn:Hroot.
  - destruct (yarn_workspaces (Project.path this) (files w)) as [info|e] eqn:Hy.
    + rewrite (removeExtraneousNodeModules_root resolve yarn_workspaces
                 this w info Hroot Hy).
      apply prune_subseteq.
    + by rewrite (removeExtraneousNodeModules_throw this w e Hroot Hy).
  - by rewrite removeExtraneousNodeModules_not_root.
Qed.

(** X14: when the workspace query fails on the root, its error is the
    outcome and no entry has been removed. *)
Theorem X14_query_failure_removes_nothing (this : Project.t) (w : world)
    (e : exn) :
  Project.isWorkspaceRoot this = true ->
  yarn_workspaces (Project.path this) (files w) = Throw e ->
  removeExtraneousNodeModules this w
  = (Throw e,
     World (files w) (calls w ++ [YarnWorkspacesInfo (Project.path this)])).
Proof. apply removeExtraneousNodeModules_throw. Qed.

(** X15: pruning a second time, with yarn giving the same answer, removes
    nothing more. *)
Theorem X15_pruning_idempotent (this : Project.t) (w : world)
    (workspacesInfo : workspaces_info) :
  Project.isWorkspaceRoot this = true ->
  yarn_workspaces (Project.path this) (files w) = Return workspacesInfo ->
  yarn_workspaces (Project.path this)
    (files (removeExtraneousNodeModules this w).2) = Return workspacesInfo ->
  files (removeExtraneousNodeModules this
           (removeExtraneousNodeModules this w).2).2
  = files (removeExtraneousNodeModules this w).2.
Proof.
  intros Hroot Hinfo.
  rewrite (removeExtraneousNodeModules_root resolve yarn_workspaces
             this w workspacesInfo Hroot Hinfo).
  cbn [snd files]. intros Hinfo'.
  match goal with
  | |- context [Project.removeExtraneousNodeModules _ _ this ?w1] =>
      rewrite (removeExtraneousNodeModules_root resolve yarn_workspaces
                 this w1 workspacesInfo Hroot Hinfo')
  end.
  cbn [snd files]. apply prune_idempotent.
Qed.

Lemma installInDir_throw (dir : string) (extraArgs : option (list string))
    (useAdd : option bool) (w : world) (e : exn) :
  yarn_install dir extraArgs useAdd (files w) = Throw e ->
  Project.installInDir yarn_install dir extraArgs useAdd w
  = (Throw e, World (files w) (calls w ++ [InstallInDir dir extraArgs useAdd])).
Proof.
  intros H. unfold Project.installInDir, bind, record_call, on_files.
  cbn [files calls]. by rewrite H.
Qed.

(** X17: on a project that is not the workspace root,
    [installDependencies] is the install step and nothing else. *)
Theorem X17_installDependencies_not_root (this : Project.t)
    (extraArgs : list string) (w : world) :
  Project.isWorkspaceRoot this = false ->
  installDependencies this extraArgs w
  = Project.installInDir yarn_install (Project.path this) (Some extraArgs)
      None w.
Proof.
  intros Hroot. unfold Project.installDependencies, bind.
  destruct (Project.installInDir _ _ _ _ w) as [[[]|e] w']; [|reflexivity].
  by apply removeExtraneousNodeModules_not_root.
Qed.

(** X18: when the install fails, [installDependencies] ends with that
    error: the workspace is not queried and no link is removed, on the
    root as on any other project. *)
Theorem X18_installDependencies_install_fails (this : Project.t)
    (extraArgs : list string) (w : world) (e : exn) :
  yarn_install (Project.path this) (Some extraArgs) None (files w) = Throw e ->
  installDependencies this extraArgs w
  = (Throw e,
     World (files w)
       (calls w ++ [InstallInDir (Project.path this) (Some extraArgs) None])).
Proof.
  intros Hthrow. unfold Project.installDependencies, bind.
  by rewrite (installInDir_throw _ _ _ _ e).
Qed.

(** X19: on the root, after a successful install, the links of the
    extraneous members are gone from the installed files, nothing else is
    missing, and the calls made are the install and then the workspace
    query. *)
Theorem X19_installDependencies_root (this : Project.t)
    (extraArgs : list string) (w : world) (fs : gmap string string)
    (workspacesInfo : workspaces_info) :
  Project.isWorkspaceRoot this = true ->
  yarn_install (Project.path this) (Some extraArgs) None (files w) = Return fs ->
  yarn_workspaces (Project.path this) fs = Return workspacesInfo ->
  exists fs',
    installDependencies this extraArgs w
    = (Return tt,
       World fs'
         (calls w ++ [ InstallInDir (Project.path this) (Some extraArgs) None;
                       YarnWorkspacesInfo (Project.path this) ]))
    /\ (forall n, extraneous this workspacesInfo n ->
                  fs' !! link this n = None)
    /\ (forall p,
           ~ (exists n, extraneous this workspacesInfo n /\ link this n = p) ->
           fs' !! p = fs !! p).
Proof.
  intros Hroot Hinstall Hinfo. eexists. split; [|split].
  - unfold Project.installDependencies, bind.
    rewrite (installInDir_run yarn_install _ _ _ _ fs) by done.
    rewrite (removeExtraneousNodeModules_root resolve yarn_workspaces
               this _ workspacesInfo Hroot) by done.
    cbn [files calls]. by rewrite <-app_assoc.
  - intros n [Hin Hundecl]%elem_of_unused. by apply prune_lookup_removed.
  - intros p Hnone. apply prune_lookup_kept. intros n Hin Hundecl Hl.
    apply Hnone. exists n. split; [|done]. by apply elem_of_unused.
Qed.

(** X20: when the install of [installDependencyVersion] fails, that error
    is the outcome and the install is the only call made: neither
    [patchFile] call follows and nothing is pruned, so the method itself
    leaves the files untouched. *)
Theorem X20_installDependencyVersion_install_fails (this : Project.t)
    (depName version : string) (dev : bool) (range : option string)
    (w : world) (e : exn) :
  let extraArgs :=
    if Project.isWorkspaceProject this then None
    else Some ([depName +:+ "@" +:+ version]
                 ++ (if dev then ["--dev"] else [])) in
  let useAdd := if Project.isWorkspaceProject this then None else Some true in
  yarn_install (Project.path this) extraArgs useAdd (files w) = Throw e ->
  installDependencyVersion this depName version dev range w
  = (Throw e,
     World (files w)
       (calls w ++ [InstallInDir (Project.path this) extraArgs useAdd])).
Proof.
  cbv zeta. intros Hthrow. unfold Project.installDependencyVersion.
  unfold bind at 1.
  destruct (Project.isWorkspaceProject this);
    by rewrite (installInDir_throw _ _ _ _ e).
Qed.

(** The set of unused workspaces does not depend on the order in which
    yarn lists the members. *)
Lemma drop_used_Permutation (info info' : workspaces_info) (n : string) :
  NoDup info.*1 -> info ≡ₚ info' ->
  n ∈ Project.drop_used info (Set_new info.*1)
  <-> n ∈ Project.drop_used info' (Set_new info'.*1).
Proof.
  intros Hnd Hperm. rewrite !(elem_of_drop_used resolve yarn_workspaces).
  assert (forall m, m ∈ info.*1 <-> m ∈ info'.*1) as Hkeys.
  { intros m. by rewrite Hperm. }
  assert (forall m, assoc m info = assoc m info') as Hassoc.
  { intros m. by apply assoc_Permutation. }
  split; intros [Hin Hfree]; (split; [by apply Hkeys|]);
    intros m Hm; [rewrite <-Hassoc|rewrite Hassoc]; apply Hfree; by apply Hkeys.
Qed.

(** X16: the files left by the pruning do not depend on the order in
    which the workspace query lists the members. *)
Theorem X16_pruning_order_independent
    (yarn_workspaces' :
       string -> gmap string string -> completion workspaces_info)
    (this : Project.t) (w : world) (info info' : workspaces_info) :
  Project.isWorkspaceRoot this = true ->
  yarn_workspaces (Project.path this) (files w) = Return info ->
  yarn_workspaces' (Project.path this) (files w) = Return info' ->
  NoDup info.*1 ->
  info ≡ₚ info' ->
  files (Project.removeExtraneousNodeModules resolve yarn_workspaces this w).2
  = files (Project.removeExtraneousNodeModules resolve yarn_workspaces' this w).2.
Proof.
  intros Hroot Hinfo Hinfo' Hnd Hperm.
  rewrite (removeExtraneousNodeModules_root resolve yarn_workspaces
             this w info Hroot Hinfo).
  rewrite (removeExtraneousNodeModules_root resolve yarn_workspaces'
             this w info' Hroot Hinfo').
  cbn [snd files]. apply map_eq. intros p. rewrite !prune_lookup.
  apply decide_ext. rewrite !Exists_exists.
  split; intros (n & Hin & Hrest); exists n; (split; [|done]);
    by apply (drop_used_Permutation info info' n Hnd Hperm).
Qed.

End Pruning.

(* ================================================================== *)
(** * The further properties on the sample workspace *)

Lemma X5_production_shadows_in_validation_witness :
  Project.ensureValidProjectDependency Posix.relative isLinkDependency_strict
    (Sample.new Cases.app_dev_link_json "/ws/app") Sample.lib false
  = Return tt
  /\ exists e,
      Project.ensureValidProjectDependency Posix.relative
        isLinkDependency_strict
        (Sample.new Cases.app_shadowed_json "/ws/app") Sample.lib false
      = Throw e.
Proof.
  split.
  - refine (proj1 (X5_production_shadows_in_validation Posix.resolve
                     Posix.relative isLinkDependency_strict BuildTargets_spec
                     Cases.app_dev_link_json "/ws/app" Sample.lib false) _ _);
      vm_compute; reflexivity.
  - refine (proj2 (X5_production_shadows_in_validation Posix.resolve
                     Posix.relative isLinkDependency_strict BuildTargets_spec
                     Cases.app_shadowed_json "/ws/app" Sample.lib false)
              "^1.0.0" _ _); [vm_compute; reflexivity|differ].
Defined.

Lemma X6_expected_declaration_remedies_witness :
  Project.ensureValidProjectDependency Posix.relative isLinkDependency_strict
    (Sample.new
       (declare_dependency "lib" "link:../libs/lib" Sample.app_undeclared_json)
       "/ws/app")
    Sample.lib false
  = Return tt.
Proof.
  refine (X6_expected_declaration_remedies Posix.resolve Posix.relative
            isLinkDependency_strict BuildTargets_spec
            Sample.app_undeclared_json "/ws/app" Sample.lib false
            "link:../libs/lib" _).
  vm_compute. reflexivity.
Defined.

Lemma X8_buildForTargets_guard_witness :
  Project.buildForTargets (option bool) Cases.build_echo Sample.app (Some true)
    Sample.world_links
  = (Return (inl false), Sample.world_links)
  /\ Project.buildForTargets (option bool) Cases.build_echo Sample.lib
       (Some true) Sample.world_links
     = (Return (inr (Some true)), Sample.world_links).
Proof.
  split.
  - refine (proj1 (X8_buildForTargets_guard Posix.resolve BuildTargets_spec
                     (option bool) Cases.build_echo Sample.app_json "/ws/app"
                     (Some true) Sample.world_links) _).
    intros target H.
    repeat (apply elem_of_cons in H as [->|H]; [reflexivity|]).
    by apply elem_of_nil in H.
  - refine (proj2 (X8_buildForTargets_guard Posix.resolve BuildTargets_spec
                     (option bool) Cases.build_echo Sample.lib_json
                     "/ws/libs/lib" (Some true) Sample.world_links) _).
    exists "web". split; [apply elem_of_cons; by left|reflexivity].
Defined.

Lemma X10_bin_member_not_a_string_witness :
  Project.getExecutables Posix.resolve inspect_plain Cases.foo_bad_member
  = Throw (ForeignError "ERR_INVALID_ARG_TYPE").
Proof.
  refine (X10_bin_member_not_a_string Posix.resolve inspect_plain
            Cases.foo_bad_member
            (JObject [("foo", JString "./bin/foo.js"); ("bar", JNumber 1)])
            "bar" _ _ _ _ _).
  - reflexivity.
  - reflexivity.
  - reflexivity.
  - cbn. apply elem_of_cons. right. apply elem_of_cons. by left.
  - intros s H. vm_compute in H. discriminate H.
Defined.

Lemma X11_helper_failure_surfaces_witness :
  Project.ensureValidProjectDependency Posix.relative
    Cases.isLinkDependency_failing Sample.app_registry Sample.lib false
  = Throw (ForeignError "TypeError").
Proof.
  refine (X11_helper_failure_surfaces Posix.relative
            Cases.isLinkDependency_failing Sample.app_registry Sample.lib
            false (ForeignError "TypeError") _ _).
  - differ.
  - reflexivity.
Defined.

Lemma X12_pruning_characterised_witness :
  exists fs',
    Project.removeExtraneousNodeModules Posix.resolve yarn_workspaces_abc
      Sample.root Sample.world_links
    = (Return tt, World fs' [YarnWorkspacesInfo "/ws"])
    /\ forall p,
        ((exists n, extraneous Sample.root info_abc n
                    /\ link Posix.resolve Sample.root n = p) ->
         fs' !! p = None)
        /\ (~ (exists n, extraneous Sample.root info_abc n
                         /\ link Posix.resolve Sample.root n = p) ->
            fs' !! p = files Sample.world_links !! p).
Proof.
  refine (X12_pruning_characterised Posix.resolve yarn_workspaces_abc
            Sample.root Sample.world_links info_abc _ _); reflexivity.
Defined.

Lemma X14_query_failure_removes_nothing_witness :
  Project.removeExtraneousNodeModules Posix.resolve
    Cases.yarn_workspaces_failing Sample.root Sample.world_links
  = (Throw (ForeignError "yarn workspaces info failed"),
     World (files Sample.world_links) [YarnWorkspacesInfo "/ws"]).
Proof.
  refine (X14_query_failure_removes_nothing Posix.resolve
            Cases.yarn_workspaces_failing Sample.root Sample.world_links
            (ForeignError "yarn workspaces info failed") _ _); reflexivity.
Defined.

Lemma X15_pruning_idempotent_witness :
  files (Project.removeExtraneousNodeModules Posix.resolve yarn_workspaces_abc
           Sample.root
           (Project.removeExtraneousNodeModules Posix.resolve
              yarn_workspaces_abc Sample.root Sample.world_links).2).2
  = files (Project.removeExtraneousNodeModules Posix.resolve
             yarn_workspaces_abc Sample.root Sample.world_links).2.
Proof.
  refine (X15_pruning_idempotent Posix.resolve yarn_workspaces_abc
            Sample.root Sample.world_links info_abc _ _ _); reflexivity.
Defined.

Lemma X16_pruning_order_independent_witness :
  files (Project.removeExtraneousNodeModules Posix.resolve yarn_workspaces_abc
           Sample.root Sample.world_links).2
  = files (Project.removeExtraneousNodeModules Posix.resolve
             Cases.yarn_workspaces_cba Sample.root Sample.world_links).2.
Proof.
  refine (X16_pruning_order_independent Posix.resolve yarn_workspaces_abc
            Cases.yarn_workspaces_cba Sample.root Sample.world_links
            info_abc Cases.info_cba _ _ _ _ _).
  - reflexivity.
  - reflexivity.
  - reflexivity.
  - cbn. repeat constructor; rewrite ?elem_of_cons, ?elem_of_nil;
      intuition discriminate.
  - change Cases.info_cba with (reverse info_abc).
    symmetry. apply reverse_Permutation.
Defined.

Lemma X17_installDependencies_not_root_witness :
  Project.installDependencies Posix.resolve yarn_idle yarn_workspaces_abc
    Sample.app ["--frozen-lockfile"] Sample.world_installed
  = Project.installInDir yarn_idle "/ws/app" (Some ["--frozen-lockfile"]) None
      Sample.world_installed.
Proof.
  refine (X17_installDependencies_not_root Posix.resolve yarn_idle
            yarn_workspaces_abc Sample.app ["--frozen-lockfile"]
            Sample.world_installed _).
  reflexivity.
Defined.

Lemma X18_installDependencies_install_fails_witness :
  Project.installDependencies Posix.resolve Cases.yarn_failing
    yarn_workspaces_abc Sample.root [] Sample.world_links
  = (Throw (ForeignError "yarn exited with code 1"),
     World (files Sample.world_links) [InstallInDir "/ws" (Some []) None]).
Proof.
  refine (X18_installDependencies_install_fails Posix.resolve
            Cases.yarn_failing yarn_workspaces_abc Sample.root []
            Sample.world_links (ForeignError "yarn exited with code 1") _).
  reflexivity.
Defined.

Lemma X19_installDependencies_root_witness :
  exists fs',
    Project.installDependencies Posix.resolve yarn_idle yarn_workspaces_abc
      Sample.root [] Sample.world_links
    = (Return tt,
       World fs' [InstallInDir "/ws" (Some []) None; YarnWorkspacesInfo "/ws"])
    /\ (forall n, extraneous Sample.root info_abc n ->
                  fs' !! link Posix.resolve Sample.root n = None)
    /\ (forall p,
           ~ (exists n, extraneous Sample.root info_abc n
                        /\ link Posix.resolve Sample.root n = p) ->
           fs' !! p = files Sample.world_links !! p).
Proof.
  refine (X19_installDependencies_root Posix.resolve yarn_idle
            yarn_workspaces_abc Sample.root [] Sample.world_links
            (files Sample.world_links) info_abc _ _ _); reflexivity.
Defined.

Lemma X20_installDependencyVersion_install_fails_witness :
  Project.installDependencyVersion Posix.resolve Cases.yarn_failing
    yarn_workspaces_abc Sample.app "lodash" "4.17.21" false None
    Sample.world_installed
  = (Throw (ForeignError "yarn exited with code 1"),
     World (files Sample.world_installed)
       [InstallInDir "/ws/app" (Some ["lodash@4.17.21"]) (Some true)]).
Proof.
  refine (X20_installDependencyVersion_install_fails Posix.resolve
            Cases.yarn_failing yarn_workspaces_abc Sample.app "lodash"
            "4.17.21" false None Sample.world_installed
            (ForeignError "yarn exited with code 1") _).
  reflexivity.
Defined.
